(** * flytekit.annotated.base_task: Task and PythonTask

    A shallow embedding of [src/flytekit/annotated/base_task.py]: the
    invocation dispatcher [Task.__call__], the local execution path
    [Task._local_execute], the output reconciliation of
    [PythonTask.dispatch_execute] and the memoised
    [PythonTask.get_registerable_entity].

    Python values are an inductive type, dictionaries are insertion-ordered
    association lists, and effects (the ambient context, the call and log
    trace, the state of user code, the cache slot of every instance) are
    threaded through a state-and-exception monad in which, as in Python, the
    effects performed before an exception is raised stay in place. *)

From Stdlib Require Import ZArith DecimalString.
From stdpp Require Import base option list strings gmap.

(** ** Python runtime *)

(** An exception value: its class name, whether the class derives from
    [Exception] (as opposed to [BaseException] only, like [SystemExit] and
    [KeyboardInterrupt]), and [str(e)]. *)
Record exn := Exn {
  exn_type : string;
  exn_is_Exception : bool;
  exn_msg : string;
}.

Definition FlyteAssertion (msg : string) : exn := Exn "FlyteAssertion" true msg.
Definition AssertionError (msg : string) : exn := Exn "AssertionError" true msg.
Definition IndexError (msg : string) : exn := Exn "IndexError" true msg.
Definition TypeError (msg : string) : exn := Exn "TypeError" true msg.
Definition KeyError (key : string) : exn := Exn "KeyError" true key.
Definition AttributeError (msg : string) : exn := Exn "AttributeError" true msg.
Definition Exception (msg : string) : exn := Exn "Exception" true msg.
Definition SystemExit (code : string) : exn := Exn "SystemExit" false code.

(** The outcome of a Python call: a value, or a raised exception. *)
Inductive result (A : Type) : Type :=
| Ok (a : A)
| Raise (e : exn).
Arguments Ok {A} a.
Arguments Raise {A} e.

(** A [dict] with string keys: the items in insertion order, keys unique. *)
Definition dict (V : Type) : Type := list (string * V).

Definition dict_keys {V} (d : dict V) : list string := d.*1.

Fixpoint dict_get {V} (k : string) (d : dict V) : option V :=
  match d with
  | [] => None
  | (k', v) :: d' => if bool_decide (k = k') then Some v else dict_get k d'
  end.

(** [d[k] = v]: the value of an existing key is replaced in place, a new key
    goes to the end. *)
Fixpoint dict_set {V} (k : string) (v : V) (d : dict V) : dict V :=
  match d with
  | [] => [(k, v)]
  | (k', v') :: d' =>
      if bool_decide (k = k') then (k, v) :: d' else (k', v') :: dict_set k v d'
  end.

(** [d[k]], raising [KeyError]. *)
Definition getitem {V} (d : dict V) (k : string) : result V :=
  match dict_get k d with
  | Some v => Ok v
  | None => Raise (KeyError k)
  end.

(** [str(n)] for a length. *)
Definition format_nat (n : nat) : string := NilZero.string_of_uint (Nat.to_uint n).

(** The types of the models this module imports and never looks into. *)
Class Models := {
  Literal : Type;          (* flytekit.models.literals.Literal *)
  LiteralType : Type;      (* flytekit.models.types.LiteralType *)
  PyType : Type;           (* Python type objects *)
  DynamicJobSpec : Type;   (* flytekit.models.dynamic_job.DynamicJobSpec *)
  Node : Type;             (* what the graph linker hands back *)
  Container : Type;        (* flytekit.models.task.Container *)
  Heap : Type;             (* the state that task bodies read and write *)
}.

Section Values.
Context `{Mo : Models}.

(** The Python values that flow through a task. *)
#[local] Unset Elimination Schemes.
Inductive pyval : Type :=
| PNone
| PInt (z : Z)
| PStr (s : string)
| PTuple (xs : list pyval)
| PList (xs : list pyval)
| PDict (items : list (string * pyval))
| PLiteralMap (literals : dict Literal)
| PDynamicJobSpec (spec : DynamicJobSpec)
| PPromise (var : string) (val : Literal)
| PVoidPromise (task_name : string)
| PNode (n : Node).
#[local] Set Elimination Schemes.

(** [isinstance(v, tuple)] *)
Definition isinstance_tuple (v : pyval) : bool :=
  match v with PTuple _ => true | _ => false end.

(** [isinstance(v, _literal_models.LiteralMap)] *)
Definition isinstance_LiteralMap (v : pyval) : bool :=
  match v with PLiteralMap _ => true | _ => false end.

(** [isinstance(v, _dynamic_job.DynamicJobSpec)] *)
Definition isinstance_DynamicJobSpec (v : pyval) : bool :=
  match v with PDynamicJobSpec _ => true | _ => false end.

(** [isinstance(v, VoidPromise)] *)
Definition isinstance_VoidPromise (v : pyval) : bool :=
  match v with PVoidPromise _ => true | _ => false end.

(** The elements [v[0], v[1], ...] that [enumerate(v)] walks through, or
    the exception that iterating or indexing [v] raises. A non-empty
    [dict] is iterated by key and then indexed by position, which is a
    [KeyError] on its string keys. *)
Definition enumerate (v : pyval) : result (list pyval) :=
  match v with
  | PTuple xs | PList xs => Ok xs
  | PStr s => Ok ((fun c => PStr (String c EmptyString)) <$> String.list_ascii_of_string s)
  | PDict [] => Ok []
  | PDict (_ :: _) => Raise (KeyError "0")
  | _ => Raise (TypeError "object is not iterable")
  end.
End Values.

(** ** The models and the ambient context this module reads *)

(** Modelled from the spec: [BranchEvalMode] of
    flytekit.annotated.context_manager, the branch evaluation flag
    (active / skipped) of a local workflow execution. *)
Module BranchEvalMode.
Inductive t := BRANCH_ACTIVE | BRANCH_SKIPPED.
#[global] Instance branch_eval_mode_eq_dec : EqDecision t.
Proof. solve_decision. Defined.
End BranchEvalMode.

(** Modelled from the spec: [ExecutionState] of
    flytekit.annotated.context_manager, the execution mode
    (local-workflow-simulation / other) with its branch flag; no execution
    mode at all is [execution_state = None] in the context. *)
Module ExecutionState.
Module Mode.
Inductive t := TASK_EXECUTION | LOCAL_WORKFLOW_EXECUTION.
#[global] Instance execution_mode_eq_dec : EqDecision t.
Proof. solve_decision. Defined.
End Mode.
Record t := Build {
  mode : Mode.t;
  branch_eval_mode : BranchEvalMode.t;
}.
End ExecutionState.

(** Modelled from the spec: the compilation state of the context; the code
    only reads its integer [mode]. *)
Module CompilationState.
Record t := Build {
  mode : Z;
}.
End CompilationState.

(** Modelled from the spec: the identity fields the registration settings
    contribute to a registerable structure. *)
Module RegistrationSettings.
Record t := Build {
  project : string;
  domain : string;
  version : string;
}.
End RegistrationSettings.

(** Modelled from the spec: the ambient context of
    flytekit.annotated.context_manager, as far as this module reads it. *)
Module FlyteContext.
Record t := Build {
  compilation_state : option CompilationState.t;
  execution_state : option ExecutionState.t;
  registration_settings : RegistrationSettings.t;
}.
End FlyteContext.

(** Modelled from the spec: task metadata, of which the code reads the timeout
    and the retry policy to pass them on. *)
Module TaskMetadata.
Record t := Build {
  timeout : Z;
  retries : nat;
}.
End TaskMetadata.

(** Modelled from the spec: the identifier inside an [SdkTask], with the four
    fields [get_task_structure] assigns. *)
Module Identifier.
Record t := Build {
  resource_type : string;
  _project : string;
  _domain : string;
  _name : string;
  _version : string;
}.
End Identifier.

(** Modelled from the spec: [Variable] and [TypedInterface] of
    flytekit.models.interface, the ordered mappings of input and output names
    to typed variables. *)
Module Variable_.
Section Def.
Context `{Mo : Models}.
Record t := Build {
  type : LiteralType;
  description : string;
}.
End Def.
End Variable_.

Module TypedInterface.
Section Def.
Context `{Mo : Models}.
Record t := Build {
  inputs : dict Variable_.t;
  outputs : dict Variable_.t;
}.
End Def.
End TypedInterface.

(** Modelled from the spec: [Interface] of flytekit.annotated.interface, the
    ordered mappings of input and output names to Python types. *)
Module Interface.
Section Def.
Context `{Mo : Models}.
Record t := Build {
  inputs : dict PyType;
  outputs : dict PyType;
}.
End Def.
End Interface.

(** Modelled from the spec: [SdkTask] of flytekit.common.tasks.task, with the
    fields [get_task_structure] passes to its constructor and its [id]. *)
Module SdkTask.
Section Def.
Context `{Mo : Models}.
Record t := Build {
  type : string;
  metadata : TaskMetadata.t;
  interface : TypedInterface.t;
  custom : option (dict pyval);
  container : option Container;
  id : Identifier.t;
}.
End Def.
End SdkTask.

(** ** Effects *)

Inductive log_level := INFO | WARNING | ERROR.

Section Effects.
Context `{Mo : Models}.

(** What the trace records: the log records, and every call that leaves
    this module. *)
Inductive event : Type :=
| Log (level : log_level) (msg : string)
| Call_current_context
| Call_translate_inputs_to_literals
| Call_literal_map_to_kwargs
| Call_to_literal (k : string)
| Call_execute (task_name : string) (kwargs : dict pyval)
| Call_create_and_link_node (task_name : string)
| Call_get_task_structure (oid : nat).

(** The state a call runs in. [context] is what
    [FlyteContext.current_context()] answers; [trace] has the most recent
    event first; [heap] belongs to the task bodies; [registerable_entity]
    holds the [_registerable_entity] slot of every Task instance, by object
    identity (no entry: the slot is [None]). *)
Record world := World {
  context : FlyteContext.t;
  trace : list event;
  heap : Heap;
  registerable_entity : gmap nat SdkTask.t;
}.

(** A computation: it ends with a value or a raised exception, and in both
    cases with the world as it left it. *)
Definition M (A : Type) : Type := world -> result A * world.

#[global] Instance M_ret : MRet M := fun A a w => (Ok a, w).

#[global] Instance M_bind : MBind M := fun A B f m w =>
  match m w with
  | (Ok a, w') => f a w'
  | (Raise e, w') => (Raise e, w')
  end.

#[global] Instance result_ret : MRet result := fun A a => Ok a.

#[global] Instance result_bind : MBind result := fun A B f r =>
  match r with
  | Ok a => f a
  | Raise e => Raise e
  end.

Definition raise {A} (e : exn) : M A := fun w => (Raise e, w).

(** The outcome of a call that has no effect of its own. *)
Definition lift {A} (r : result A) : M A := fun w => (r, w).

Definition emit (ev : event) : M unit := fun w =>
  (Ok tt, World (context w) (ev :: trace w) (heap w) (registerable_entity w)).

(** [logger.info], [logger.warning]; [logger.exception] logs at [ERROR]. *)
Definition log (level : log_level) (msg : string) : M unit := emit (Log level msg).

(** [FlyteContext.current_context()] *)
Definition current_context : M FlyteContext.t := fun w =>
  (Ok (context w),
   World (context w) (Call_current_context :: trace w) (heap w) (registerable_entity w)).

(** Running user code: it sees and changes the heap, nothing else. *)
Definition on_heap {A} (f : Heap -> result A * Heap) : M A := fun w =>
  let '(r, h) := f (heap w) in
  (r, World (context w) (trace w) h (registerable_entity w)).

(** [try: m except Exception as e: handler e]; an exception outside the
    [Exception] hierarchy passes through. *)
Definition try_except_Exception {A} (m : M A) (handler : exn -> M A) : M A := fun w =>
  match m w with
  | (Raise e, w') => if exn_is_Exception e then handler e w' else (Raise e, w')
  | (Ok a, w') => (Ok a, w')
  end.

(** [self._registerable_entity] and its assignment, for the instance [oid]. *)
Definition read_slot (oid : nat) : M (option SdkTask.t) := fun w =>
  (Ok (registerable_entity w !! oid), w).

Definition write_slot (oid : nat) (tk : SdkTask.t) : M unit := fun w =>
  (Ok tt, World (context w) (trace w) (heap w) (<[oid := tk]> (registerable_entity w))).

(** A list comprehension whose element expression can raise. *)
Fixpoint comprehension {A B} (f : A -> result B) (l : list A) : result (list B) :=
  match l with
  | [] => Ok []
  | x :: l' => y ← f x; ys ← comprehension f l'; Ok (y :: ys)
  end.
End Effects.

(** ** Collaborators *)

(** The functions of other flytekit modules that the code calls. The value
    translator is a function of its arguments that returns or raises. *)
Class Collaborators `{Mo : Models} := {
  (* flytekit.annotated.promise.translate_inputs_to_literals *)
  translate_inputs_to_literals :
    FlyteContext.t -> dict pyval -> TypedInterface.t -> option (dict PyType) ->
    result (dict Literal);
  (* TypeEngine.literal_map_to_kwargs *)
  literal_map_to_kwargs :
    FlyteContext.t -> dict Literal -> dict PyType -> result (dict pyval);
  (* TypeEngine.to_literal *)
  to_literal : FlyteContext.t -> pyval -> PyType -> LiteralType -> result Literal;
  (* flytekit.annotated.interface.transform_interface_to_typed_interface *)
  transform_interface_to_typed_interface : Interface.t -> TypedInterface.t;
  (* the [literals] attribute of a DynamicJobSpec, if it has one *)
  dynamic_job_spec_literals : DynamicJobSpec -> option (dict Literal);
  (* the identifier a new SdkTask starts with *)
  sdk_task_identifier : Identifier.t;
  (* the text of a value and of a type inside an f-string *)
  format_value : pyval -> string;
  format_type : PyType -> string;
}.

Section Calls.
Context `{Co : Collaborators}.

(** [v.literals] *)
Definition getattr_literals (v : pyval) : result (dict Literal) :=
  match v with
  | PLiteralMap literals => Ok literals
  | PDynamicJobSpec spec =>
      match dynamic_job_spec_literals spec with
      | Some literals => Ok literals
      | None => Raise (AttributeError "'DynamicJobSpec' object has no attribute 'literals'")
      end
  | _ => Raise (AttributeError "object has no attribute 'literals'")
  end.

(** Modelled from the spec: [create_task_output] of flytekit.annotated.promise,
    which is not in this module. "Return a single Promise when exactly one
    output exists, otherwise an ordered collection of Promises". *)
Definition create_task_output (promises : list pyval) : pyval :=
  match promises with
  | [p] => p
  | _ => PTuple promises
  end.

(** [self.execute] applied to keyword arguments: the call is recorded, then
    the body runs. *)
Definition call_execute (task_name : string)
    (execute : dict pyval -> Heap -> result pyval * Heap) (kwargs : dict pyval) : M pyval :=
  emit (Call_execute task_name kwargs);; on_heap (execute kwargs).
End Calls.

(** ** kwtypes *)

Section Kwtypes.
Context `{Mo : Models}.

(** [kwtypes]: the keyword arguments, copied item by item, in their order,
    into a new ordered dictionary. *)
Definition kwtypes (kwargs : dict PyType) : dict PyType :=
  fold_left (fun d '(k, v) => dict_set k v d) kwargs [].
End Kwtypes.

(** ** class Task *)

Module Task.
Section Def.
Context `{Co : Collaborators}.

(** A Task instance: its identity, the fields set by [__init__], and the
    methods a subclass provides or overrides. *)
Record t := Build {
  oid : nat;
  task_type : string;
  name : string;
  interface : TypedInterface.t;
  metadata : TaskMetadata.t;
  get_input_types : option (dict PyType);
  compile : FlyteContext.t -> list pyval -> dict pyval -> M pyval;
  get_container : RegistrationSettings.t -> option Container;
  get_custom : RegistrationSettings.t -> option (dict pyval);
  dispatch_execute : FlyteContext.t -> dict Literal -> M pyval;
  execute : dict pyval -> Heap -> result pyval * Heap;
}.

(** An instance of [Task] itself: [get_input_types], [get_container] and
    [get_custom] return [None], [compile] raises, and the two abstract
    methods, whose body is [pass], return [None]. *)
Definition base (oid : nat) (task_type name : string) (interface : TypedInterface.t)
    (metadata : TaskMetadata.t) : t :=
  Build oid task_type name interface metadata
    None
    (fun _ _ _ => raise (Exception "not implemented"))
    (fun _ => None)
    (fun _ => None)
    (fun _ _ => mret PNone)
    (fun _ h => (Ok PNone, h)).

Definition _local_execute (self : t) (ctx : FlyteContext.t) (kwargs : dict pyval) : M pyval :=
  emit Call_translate_inputs_to_literals;;
  kwargs ← lift (translate_inputs_to_literals ctx kwargs (interface self) (get_input_types self));
  let input_literal_map := kwargs in
  outputs_literal_map ← dispatch_execute self ctx input_literal_map;
  if isinstance_VoidPromise outputs_literal_map then mret outputs_literal_map
  else
    outputs_literals ← lift (getattr_literals outputs_literal_map);
    let output_names := dict_keys (TypedInterface.outputs (interface self)) in
    if negb (length output_names =? length outputs_literals)%nat then
      raise (AssertionError ("Length difference " +:+ format_nat (length output_names)
                             +:+ " " +:+ format_nat (length outputs_literals)))
    else
      vals ← lift (comprehension
                     (fun var => lit ← getitem outputs_literals var; Ok (PPromise var lit))
                     output_names);
      mret (create_task_output vals).

Definition __call__ (self : t) (args : list pyval) (kwargs : dict pyval) : M pyval :=
  if (0 <? length args)%nat then
    raise (FlyteAssertion
             ("In Flyte workflows, on keyword args are supported to pass inputs to workflows and tasks."
              +:+ "Aborting execution as detected " +:+ format_nat (length args)
              +:+ " positional args " +:+ format_value (PTuple args)))
  else
    ctx ← current_context;
    if match FlyteContext.compilation_state ctx with
       | Some cs => bool_decide (CompilationState.mode cs = 1%Z)
       | None => false
       end
    then compile self ctx args kwargs
    else if match FlyteContext.execution_state ctx with
            | Some es => bool_decide (ExecutionState.mode es = ExecutionState.Mode.LOCAL_WORKFLOW_EXECUTION)
            | None => false
            end
    then
      if match FlyteContext.execution_state ctx with
         | Some es => bool_decide (ExecutionState.branch_eval_mode es = BranchEvalMode.BRANCH_SKIPPED)
         | None => false
         end
      then mret PNone
      else _local_execute self ctx kwargs
    else
      log WARNING "task run without context - executing raw function";;
      call_execute (name self) (execute self) kwargs.

Definition get_task_structure (self : t) : M SdkTask.t :=
  emit (Call_get_task_structure (oid self));;
  ctx ← current_context;
  let settings := FlyteContext.registration_settings ctx in
  let tk := SdkTask.Build (task_type self) (metadata self) (interface self)
              (get_custom self settings) (get_container self settings)
              sdk_task_identifier in
  let tk := SdkTask.Build (SdkTask.type tk) (SdkTask.metadata tk) (SdkTask.interface tk)
              (SdkTask.custom tk) (SdkTask.container tk)
              (Identifier.Build (Identifier.resource_type (SdkTask.id tk))
                 (RegistrationSettings.project settings)
                 (RegistrationSettings.domain settings)
                 (name self)
                 (RegistrationSettings.version settings)) in
  mret tk.
End Def.
End Task.

(** ** class PythonTask(Task) *)

Module PythonTask.
Section Def.
Context `{Co : Collaborators}.

(** A PythonTask instance. [interface] is what [__init__] hands to
    [Task.__init__], the typed form of [python_interface]; [execute] is the
    body a subclass binds. *)
Record t := Build {
  oid : nat;
  task_type : string;
  name : string;
  interface : TypedInterface.t;
  python_interface : Interface.t;
  metadata : TaskMetadata.t;
  execute : dict pyval -> Heap -> result pyval * Heap;
}.

(** [__init__]: the new instance [oid] with the body [execute] its class
    binds. (The entry [Task.__init__] appends to [FlyteEntities.entities]
    plays no part in what follows.) *)
Definition __init__ (oid : nat) (execute : dict pyval -> Heap -> result pyval * Heap)
    (task_type name : string) (interface : Interface.t) (metadata : TaskMetadata.t) : t :=
  Build oid task_type name (transform_interface_to_typed_interface interface) interface
    metadata execute.

(** [flytekit.annotated.node.create_and_link_node], the graph linker. *)
Class GraphLinker := {
  create_and_link_node :
    FlyteContext.t -> t -> Interface.t -> Z -> nat -> dict pyval ->
    Heap -> result pyval * Heap;
}.
Context `{Gl : GraphLinker}.

Definition get_type_for_input_var (self : t) (k : string) (v : pyval) : result PyType :=
  getitem (Interface.inputs (python_interface self)) k.

Definition get_type_for_output_var (self : t) (k : string) (v : pyval) : result PyType :=
  getitem (Interface.outputs (python_interface self)) k.

Definition get_input_types (self : t) : option (dict PyType) :=
  Some (Interface.inputs (python_interface self)).

Definition compile (self : t) (ctx : FlyteContext.t) (args : list pyval)
    (kwargs : dict pyval) : M pyval :=
  emit (Call_create_and_link_node (name self));;
  on_heap (create_and_link_node ctx self (python_interface self)
             (TaskMetadata.timeout (metadata self))
             (TaskMetadata.retries (metadata self)) kwargs).

(** [{expected_output_names[i]: native_outputs[i] for i, _ in
    enumerate(native_outputs)}], from index [i] on, [elems] being the
    elements still to come. *)
Fixpoint native_outputs_as_map (expected_output_names : list string) (i : nat)
    (elems : list pyval) (acc : dict pyval) : result (dict pyval) :=
  match elems with
  | [] => Ok acc
  | v :: elems' =>
      match expected_output_names !! i with
      | None => Raise (IndexError "list index out of range")
      | Some k => native_outputs_as_map expected_output_names (S i) elems' (dict_set k v acc)
      end
  end.

(** The loop [for k, v in native_outputs_as_map.items()] that fills
    [literals]. *)
Fixpoint literals_loop (self : t) (ctx : FlyteContext.t) (items : list (string * pyval))
    (literals : dict Literal) : M (dict Literal) :=
  match items with
  | [] => mret literals
  | (k, v) :: items' =>
      var ← lift (getitem (TypedInterface.outputs (interface self)) k);
      let literal_type := Variable_.type var in
      py_type ← lift (get_type_for_output_var self k v);
      if isinstance_tuple v then
        raise (AssertionError ("Output(" +:+ k +:+ ") in task" +:+ name self
                               +:+ " received a tuple " +:+ format_value v
                               +:+ ", instead of " +:+ format_type py_type))
      else
        emit (Call_to_literal k);;
        lit ← lift (to_literal ctx v py_type literal_type);
        literals_loop self ctx items' (dict_set k lit literals)
  end.

Definition dispatch_execute (self : t) (ctx : FlyteContext.t)
    (input_literal_map : dict Literal) : M pyval :=
  emit Call_literal_map_to_kwargs;;
  native_inputs ← lift (literal_map_to_kwargs ctx input_literal_map
                          (Interface.inputs (python_interface self)));
  log INFO ("Invoking " +:+ name self +:+ " with inputs: " +:+ format_value (PDict native_inputs));;
  native_outputs ← try_except_Exception
                     (call_execute (name self) (execute self) native_inputs)
                     (fun e => log ERROR ("Exception when executing " +:+ exn_msg e);; raise e);
  log INFO ("Task executed successfully in user level, outputs: " +:+ format_value native_outputs);;
  if isinstance_LiteralMap native_outputs || isinstance_DynamicJobSpec native_outputs then
    mret native_outputs
  else
    let expected_output_names := dict_keys (TypedInterface.outputs (interface self)) in
    if (length expected_output_names =? 1)%nat then
      k0 ← lift (match expected_output_names !! 0%nat with
                 | Some k => Ok k
                 | None => Raise (IndexError "list index out of range")
                 end);
      literals ← literals_loop self ctx [(k0, native_outputs)] [];
      mret (PLiteralMap literals)
    else if (length expected_output_names =? 0)%nat then
      mret (PVoidPromise (name self))
    else
      elems ← lift (enumerate native_outputs);
      as_map ← lift (native_outputs_as_map expected_output_names 0 elems []);
      literals ← literals_loop self ctx as_map [];
      mret (PLiteralMap literals).

(** The instance seen through the methods of [Task]. [get_container] and
    [get_custom] are the ones of [Task]: they return [None]. *)
Definition as_Task (self : t) : Task.t :=
  Task.Build (oid self) (task_type self) (name self) (interface self) (metadata self)
    (get_input_types self)
    (compile self)
    (fun _ => None)
    (fun _ => None)
    (dispatch_execute self)
    (execute self).

Definition get_registerable_entity (self : t) : M (option SdkTask.t) :=
  slot ← read_slot (oid self);
  match slot with
  | Some entity => mret (Some entity)
  | None =>
      tk ← Task.get_task_structure (as_Task self);
      write_slot (oid self) tk;;
      read_slot (oid self)
  end.
End Def.
End PythonTask.

(** ** Observations on a run *)

Section Observations.
Context `{Co : Collaborators}.

Definition is_Call_execute (ev : event) : bool :=
  match ev with Call_execute _ _ => true | _ => false end.

Definition is_Call_to_literal (ev : event) : bool :=
  match ev with Call_to_literal _ => true | _ => false end.

Definition is_Call_get_task_structure (oid : nat) (ev : event) : bool :=
  match ev with Call_get_task_structure o => bool_decide (o = oid) | _ => false end.

(** How many events of a trace satisfy [p]. *)
Definition count_events (p : event -> bool) (tr : list event) : nat :=
  length (List.filter p tr).

(** The context manager of flytekit.annotated.context_manager around a
    block: the block runs with [ctx] as the current context, and the
    previous context is back afterwards. *)
Definition with_context {A} (ctx : FlyteContext.t) (block : M A) : M A := fun w =>
  let '(r, w') := block (World ctx (trace w) (heap w) (registerable_entity w)) in
  (r, World (context w) (trace w') (heap w') (registerable_entity w')).

(** The world in which [PythonTask.dispatch_execute] is once the body has
    returned [v]: the translation of the inputs, the two information records
    and the call of the body are in the trace, and the heap is the one the
    body left. *)
Definition after_body (self : PythonTask.t) (w : world) (native_inputs : dict pyval)
    (v : pyval) (h' : Heap) : world :=
  World (context w)
    (Log INFO ("Task executed successfully in user level, outputs: " +:+ format_value v)
     :: Call_execute (PythonTask.name self) native_inputs
     :: Log INFO ("Invoking " +:+ PythonTask.name self +:+ " with inputs: "
                  +:+ format_value (PDict native_inputs))
     :: Call_literal_map_to_kwargs :: trace w)
    h' (registerable_entity w).

(** The world in which the body is called. *)
Definition before_body (self : PythonTask.t) (w : world) (native_inputs : dict pyval) : world :=
  World (context w)
    (Log INFO ("Invoking " +:+ PythonTask.name self +:+ " with inputs: "
               +:+ format_value (PDict native_inputs))
     :: Call_literal_map_to_kwargs :: trace w)
    (heap w) (registerable_entity w).

Definition is_Log_ERROR (ev : event) : bool :=
  match ev with Log ERROR _ => true | _ => false end.
End Observations.

(** ** A concrete instance: integer and string literals *)

Module Demo.
Inductive literal := LInt (z : Z) | LStr (s : string).
Inductive ty := int | str.

Definition models : Models :=
  {| Literal := literal; LiteralType := ty; PyType := ty; DynamicJobSpec := unit;
     Node := unit; Container := unit; Heap := nat |}.
#[local] Existing Instance models.

Definition value_to_literal (v : pyval) : result literal :=
  match v with
  | PInt z => Ok (LInt z)
  | PStr s => Ok (LStr s)
  | PPromise _ l => Ok l
  | _ => Raise (TypeError "no literal for this value")
  end.

Definition literal_to_value (l : literal) : pyval :=
  match l with
  | LInt z => PInt z
  | LStr s => PStr s
  end.

Definition format (v : pyval) : string :=
  match v with
  | PNone => "None"
  | PInt _ => "<int>"
  | PStr s => s
  | PTuple _ => "(...)"
  | PList _ => "[...]"
  | PDict _ => "{...}"
  | _ => "<object>"
  end.

Definition typed (types : dict ty) : dict Variable_.t :=
  List.map (prod_map id (fun t => Variable_.Build t "")) types.

Definition collaborators : Collaborators :=
  {| translate_inputs_to_literals := fun _ kwargs _ _ =>
       comprehension (fun '(k, v) => l ← value_to_literal v; Ok (k, l)) kwargs;
     literal_map_to_kwargs := fun _ lm _ => Ok (List.map (prod_map id literal_to_value) lm);
     to_literal := fun _ v _ _ => value_to_literal v;
     transform_interface_to_typed_interface := fun i =>
       TypedInterface.Build (typed (Interface.inputs i)) (typed (Interface.outputs i));
     dynamic_job_spec_literals := fun _ => None;
     sdk_task_identifier := Identifier.Build "TASK" "" "" "" "";
     format_value := format;
     format_type := fun t => match t with int => "int" | str => "str" end |}.
#[local] Existing Instance collaborators.

Definition graph_linker : PythonTask.GraphLinker :=
  {| PythonTask.create_and_link_node := fun _ _ _ _ _ _ h => (Ok (PNode tt), h) |}.
#[local] Existing Instance graph_linker.

(** A PythonTask over this instance, as its constructor builds it. *)
Definition task (oid : nat) (name : string) (inputs outputs : dict ty)
    (body : dict pyval -> nat -> result pyval * nat) : PythonTask.t :=
  PythonTask.__init__ oid body "python-task" name (Interface.Build inputs outputs)
    (TaskMetadata.Build 0 0).

(** Every body counts its runs in the heap. *)
Definition returning (v : pyval) : dict pyval -> nat -> result pyval * nat :=
  fun _ h => (Ok v, S h).

Definition raising (e : exn) : dict pyval -> nat -> result pyval * nat :=
  fun _ h => (Raise e, S h).

(** [add(x: int, y: int) -> sum: int] *)
Definition add : PythonTask.t :=
  task 1 "add" [("x", int); ("y", int)] [("sum", int)]
    (fun kwargs h =>
       match dict_get "x" kwargs, dict_get "y" kwargs with
       | Some (PInt x), Some (PInt y) => (Ok (PInt (x + y)), S h)
       | _, _ => (Raise (TypeError "add() got unexpected arguments"), S h)
       end).

(** Outputs [(b: int, a: str)], declared against the lexical order. *)
Definition pair : PythonTask.t :=
  task 2 "pair" [] [("b", int); ("a", str)] (returning (PTuple [PInt 1; PStr "x"])).

(** Two declared outputs, three returned elements. *)
Definition three_for_two : PythonTask.t :=
  task 3 "three_for_two" [] [("a", int); ("b", str)]
    (returning (PTuple [PInt 1; PStr "x"; PStr "extra"])).

(** Two declared outputs, one returned element. *)
Definition one_for_two : PythonTask.t :=
  task 4 "one_for_two" [] [("a", int); ("b", str)] (returning (PTuple [PInt 1])).

(** No declared output, and a body that hands back a literal map. *)
Definition noop : PythonTask.t :=
  task 5 "noop" [] [] (returning (PLiteralMap [])).

(** No declared output, and a body that returns a native value. *)
Definition quiet : PythonTask.t :=
  task 6 "quiet" [] [] (returning (PInt 7)).

(** One declared output, and a body that returns a tuple. *)
Definition tupled : PythonTask.t :=
  task 7 "tupled" [] [("o", int)] (returning (PTuple [PInt 1; PInt 2])).

(** A body that raises. *)
Definition failing : PythonTask.t :=
  task 8 "failing" [] [("o", int)] (raising (Exn "ValueError" true "boom")).

(** A body that calls [sys.exit(3)]. *)
Definition exiting : PythonTask.t :=
  task 9 "exiting" [] [("o", int)] (raising (SystemExit "3")).

Definition settings : RegistrationSettings.t :=
  RegistrationSettings.Build "proj" "dev" "v1".

Definition no_context : FlyteContext.t := FlyteContext.Build None None settings.

Definition local_context (branch : BranchEvalMode.t) : FlyteContext.t :=
  FlyteContext.Build None
    (Some (ExecutionState.Build ExecutionState.Mode.LOCAL_WORKFLOW_EXECUTION branch))
    settings.

(** A context whose compilation state is there but not in mode 1. *)
Definition stale_compilation (es : option ExecutionState.t) : FlyteContext.t :=
  FlyteContext.Build (Some (CompilationState.Build 0)) es settings.

Definition start (ctx : FlyteContext.t) : world := World ctx [] 0%nat ∅.

(** A value translator that wants a literal for every declared input. *)
Definition strict_collaborators : Collaborators :=
  {| translate_inputs_to_literals := fun _ kwargs _ _ =>
       comprehension (fun '(k, v) => l ← value_to_literal v; Ok (k, l)) kwargs;
     literal_map_to_kwargs := fun _ lm types =>
       comprehension (fun '(k, _) => l ← getitem lm k; Ok (k, literal_to_value l)) types;
     to_literal := fun _ v _ _ => value_to_literal v;
     transform_interface_to_typed_interface := fun i =>
       TypedInterface.Build (typed (Interface.inputs i)) (typed (Interface.outputs i));
     dynamic_job_spec_literals := fun _ => None;
     sdk_task_identifier := Identifier.Build "TASK" "" "" "" "";
     format_value := format;
     format_type := fun t => match t with int => "int" | str => "str" end |}.


(** The context of a task executed on its own. *)
Definition task_execution : FlyteContext.t :=
  FlyteContext.Build None
    (Some (ExecutionState.Build ExecutionState.Mode.TASK_EXECUTION
             BranchEvalMode.BRANCH_ACTIVE))
    settings.

(** The same contexts as above under other registration settings. *)
Definition other_settings : FlyteContext.t :=
  FlyteContext.Build None None (RegistrationSettings.Build "other" "prod" "v2").

(** Two declared outputs and a body that returns [None]. *)
Definition none_for_two : PythonTask.t :=
  task 10 "none_for_two" [] [("a", int); ("b", str)] (returning PNone).

(** Three declared outputs; the second returned element has no literal. *)
Definition second_fails : PythonTask.t :=
  task 11 "second_fails" [] [("a", int); ("b", int); ("c", str)]
    (returning (PList [PInt 1; PNone; PStr "x"])).

(** Two declared outputs; the second returned element is a tuple. *)
Definition nested : PythonTask.t :=
  task 13 "nested" [] [("a", int); ("b", int)]
    (returning (PTuple [PInt 1; PTuple [PInt 2; PInt 3]])).

(** One declared output [o], and a body that hands back a literal map keyed
    by [p]. *)
Definition wrong_key : PythonTask.t :=
  task 12 "wrong_key" [] [("o", int)] (returning (PLiteralMap [("p", LInt 1)])).

(** An instance of [Task] itself. *)
Definition bare : Task.t :=
  Task.base 14 "bare-task" "bare" (TypedInterface.Build [] (typed [("o", int)]))
    (TaskMetadata.Build 0 0).
End Demo.

(** * Properties *)

(** Unfolds the monad and the effect primitives down to functions on the
    world. *)
Ltac run :=
  repeat (unfold mbind, M_bind, result_bind, mret, M_ret, result_ret, lift, emit, log,
            raise, on_heap, call_execute, try_except_Exception, current_context,
            read_slot, write_slot; cbn).

(** ** Dictionaries and comprehensions *)

Section Containers.
Context `{Mo : Models}.

Lemma dict_set_fresh {V} (k : string) (v : V) (d : dict V) :
  k ∉ dict_keys d -> dict_set k v d = d ++ [(k, v)].
Proof.
  induction d as [|[k' v'] d IH]; intros Hk; [reflexivity|].
  cbn in *. apply not_elem_of_cons in Hk as [Hne Hk].
  rewrite bool_decide_eq_false_2 by assumption.
  by rewrite IH.
Qed.

Lemma dict_keys_app {V} (d1 d2 : dict V) :
  dict_keys (d1 ++ d2) = dict_keys d1 ++ dict_keys d2.
Proof. unfold dict_keys. apply fmap_app. Qed.

(** The Promises built from a literal map, one per name, when every name is
    a key. *)
Lemma comprehension_promises (lm : dict Literal) (names : list string) (lits : list Literal) :
  Forall2 (fun k l => dict_get k lm = Some l) names lits ->
  comprehension (fun var => lit ← getitem lm var; Ok (PPromise var lit)) names
  = Ok (zip_with PPromise names lits).
Proof.
  induction 1 as [|k l names lits Hk _ IH]; [reflexivity|].
  cbn. rewrite IH. unfold getitem. rewrite Hk. reflexivity.
Qed.

Lemma comprehension_promises_inv (lm : dict Literal) (names : list string) (vals : list pyval) :
  comprehension (fun var => lit ← getitem lm var; Ok (PPromise var lit)) names = Ok vals ->
  exists lits, Forall2 (fun k l => dict_get k lm = Some l) names lits
               /\ vals = zip_with PPromise names lits.
Proof.
  revert vals. induction names as [|k names IH]; intros vals Hv.
  - cbn in Hv. injection Hv as <-. exists []. split; [constructor | reflexivity].
  - cbn in Hv. unfold getitem in Hv.
    destruct (dict_get k lm) as [l|] eqn:Hk; cbn in Hv; [|discriminate].
    destruct (comprehension _ names) as [vals'|] eqn:Hrest; cbn in Hv; [|discriminate].
    injection Hv as <-.
    destruct (IH vals' eq_refl) as (lits & Hall & ->).
    exists (l :: lits). split; [by constructor | reflexivity].
Qed.
End Containers.

(** ** Task.__call__ and Task._local_execute *)

Section Dispatcher.
Context `{Co : Collaborators}.
Implicit Types (self : Task.t) (w : world) (kwargs : dict pyval) (args : list pyval).

(** C3. A call with one or more positional arguments raises the
    FlyteAssertion at once: the world is left exactly as it was, so the
    context has not been read, no body has run and nothing has been
    translated, and the arguments were not turned into keyword arguments. *)
Theorem call_rejects_positional_args self args kwargs w :
  (0 < length args)%nat ->
  Task.__call__ self args kwargs w =
    (Raise (FlyteAssertion
       ("In Flyte workflows, on keyword args are supported to pass inputs to workflows and tasks."
        +:+ "Aborting execution as detected " +:+ format_nat (length args)
        +:+ " positional args " +:+ format_value (PTuple args))), w).
Proof.
  intros Hargs. unfold Task.__call__.
  destruct (Nat.ltb_spec 0 (length args)) as [_|?]; [reflexivity | lia].
Qed.

(** C4. In a local workflow execution whose branch is flagged skipped (and
    with compilation not switched on, the two being exclusive), a keyword
    call returns [None] after reading the context and doing nothing else:
    no value is produced, and whatever the positional arguments, the heap of
    the bodies is untouched and no body call is added to the trace. *)
Theorem call_skipped_branch self kwargs w es :
  (forall cs, FlyteContext.compilation_state (context w) = Some cs ->
              CompilationState.mode cs <> 1%Z) ->
  FlyteContext.execution_state (context w) = Some es ->
  ExecutionState.mode es = ExecutionState.Mode.LOCAL_WORKFLOW_EXECUTION ->
  ExecutionState.branch_eval_mode es = BranchEvalMode.BRANCH_SKIPPED ->
  Task.__call__ self [] kwargs w =
    (Ok PNone,
     World (context w) (Call_current_context :: trace w) (heap w) (registerable_entity w))
  /\ forall args,
       let w' := (Task.__call__ self args kwargs w).2 in
       heap w' = heap w
       /\ count_events is_Call_execute (trace w') = count_events is_Call_execute (trace w).
Proof.
  intros Hc Hes Hm Hb.
  assert (Hrun : forall args, (0 <? length args)%nat = false ->
            Task.__call__ self args kwargs w =
              (Ok PNone,
               World (context w) (Call_current_context :: trace w) (heap w)
                 (registerable_entity w))).
  { intros args Hargs. unfold Task.__call__. rewrite Hargs. run.
    rewrite Hes, Hm, Hb.
    destruct (FlyteContext.compilation_state (context w)) as [cs|] eqn:E; [|reflexivity].
    rewrite bool_decide_eq_false_2 by (by apply Hc). reflexivity. }
  split; [by apply Hrun|].
  intros args. destruct (0 <? length args)%nat eqn:Hargs.
  - unfold Task.__call__. rewrite Hargs. by cbn.
  - rewrite (Hrun args Hargs). by cbn.
Qed.

(** C10. When the context carries a compilation state whose mode is not 1,
    a keyword call does not compile: after reading the context it goes on
    with the test of the execution state, to a skipped branch, to
    [_local_execute] or to the raw body, and this is the very computation it
    is when the context carries no compilation state at all. *)
Theorem call_with_compilation_mode_not_1 self kwargs w :
  (FlyteContext.compilation_state (context w) = None
   \/ exists cs, FlyteContext.compilation_state (context w) = Some cs
                 /\ CompilationState.mode cs <> 1%Z) ->
  Task.__call__ self [] kwargs w =
    let ctx := context w in
    let w1 := World ctx (Call_current_context :: trace w) (heap w) (registerable_entity w) in
    let raw :=
      (log WARNING "task run without context - executing raw function";;
       call_execute (Task.name self) (Task.execute self) kwargs) w1 in
    match FlyteContext.execution_state ctx with
    | Some es =>
        if bool_decide (ExecutionState.mode es = ExecutionState.Mode.LOCAL_WORKFLOW_EXECUTION)
        then
          if bool_decide (ExecutionState.branch_eval_mode es = BranchEvalMode.BRANCH_SKIPPED)
          then (Ok PNone, w1)
          else Task._local_execute self ctx kwargs w1
        else raw
    | None => raw
    end.
Proof.
  intros Hc. unfold Task.__call__. cbn [length Nat.ltb Nat.leb].
  unfold mbind at 1, M_bind at 1, current_context at 1. cbn beta iota.
  assert (match FlyteContext.compilation_state (context w) with
          | Some cs => bool_decide (CompilationState.mode cs = 1%Z)
          | None => false
          end = false) as ->.
  { destruct Hc as [-> | (cs & -> & Hne)]; [reflexivity|].
    by apply bool_decide_eq_false_2. }
  destruct (FlyteContext.execution_state (context w)) as [es|]; [|reflexivity].
  destruct (bool_decide (ExecutionState.mode es = _)); [|reflexivity].
  destruct (bool_decide (ExecutionState.branch_eval_mode es = _)); reflexivity.
Qed.
End Dispatcher.

Section LocalExecution.
Context `{Co : Collaborators}.
Implicit Types (self : Task.t) (w : world) (kwargs : dict pyval).

(** What [_local_execute] goes on to do once the inputs are translated and
    [dispatch_execute] has come back with [out]. *)
Lemma local_execute_after_dispatch self ctx kwargs w lits_in out w1 :
  translate_inputs_to_literals ctx kwargs (Task.interface self) (Task.get_input_types self)
  = Ok lits_in ->
  Task.dispatch_execute self ctx lits_in
    (World (context w) (Call_translate_inputs_to_literals :: trace w) (heap w)
       (registerable_entity w)) = (Ok out, w1) ->
  Task._local_execute self ctx kwargs w =
    if isinstance_VoidPromise out then (Ok out, w1)
    else match getattr_literals out with
         | Raise e => (Raise e, w1)
         | Ok lm =>
             let names := dict_keys (TypedInterface.outputs (Task.interface self)) in
             if (length names =? length lm)%nat then
               match comprehension
                       (fun var => lit ← getitem lm var; Ok (PPromise var lit)) names with
               | Ok vals => (Ok (create_task_output vals), w1)
               | Raise e => (Raise e, w1)
               end
             else (Raise (AssertionError
                            ("Length difference " +:+ format_nat (length names)
                             +:+ " " +:+ format_nat (length lm))), w1)
         end.
Proof.
  intros Htr Hd. unfold Task._local_execute. run. rewrite Htr. cbn. rewrite Hd.
  destruct (isinstance_VoidPromise out); [reflexivity|].
  destruct (getattr_literals out) as [lm|e]; [|reflexivity]. cbn.
  destruct (_ =? _)%nat; cbn; [|reflexivity].
  destruct (comprehension _ _); reflexivity.
Qed.

(** C6. Under local execution, once the inputs are translated and
    [dispatch_execute] has yielded [out]:
    - if [out] is the VoidPromise, it is what the caller gets, unchanged;
    - otherwise whatever the caller receives is made of one Promise per
      declared output name, in interface order, each holding the literal
      found under that name: the Promise itself when one output is declared,
      the tuple of exactly N Promises when N > 1 are;
    - and the caller does receive it whenever [out] holds as many literals
      as there are declared outputs, one under each declared name; with
      another count the call raises the length difference instead. *)
Theorem local_execute_shape self ctx kwargs w lits_in out w1 :
  translate_inputs_to_literals ctx kwargs (Task.interface self) (Task.get_input_types self)
  = Ok lits_in ->
  Task.dispatch_execute self ctx lits_in
    (World (context w) (Call_translate_inputs_to_literals :: trace w) (heap w)
       (registerable_entity w)) = (Ok out, w1) ->
  let names := dict_keys (TypedInterface.outputs (Task.interface self)) in
  let received := Task._local_execute self ctx kwargs w in
  (isinstance_VoidPromise out = true -> received = (Ok out, w1))
  /\ (isinstance_VoidPromise out = false ->
      forall r w', received = (Ok r, w') ->
        w' = w1
        /\ exists lm lits,
             getattr_literals out = Ok lm
             /\ Forall2 (fun k l => dict_get k lm = Some l) names lits
             /\ (length names = 1%nat ->
                 exists k l, names = [k] /\ lits = [l] /\ r = PPromise k l)
             /\ (1 < length names ->
                 r = PTuple (zip_with PPromise names lits)
                 /\ length (zip_with PPromise names lits) = length names))
  /\ (isinstance_VoidPromise out = false ->
      forall lm, getattr_literals out = Ok lm ->
        (forall lits,
           length lm = length names ->
           Forall2 (fun k l => dict_get k lm = Some l) names lits ->
           received = (Ok (create_task_output (zip_with PPromise names lits)), w1))
        /\ (length lm <> length names ->
            received = (Raise (AssertionError
                                 ("Length difference " +:+ format_nat (length names)
                                  +:+ " " +:+ format_nat (length lm))), w1))).
Proof.
  intros Htr Hd names received.
  pose proof (local_execute_after_dispatch self ctx kwargs w lits_in out w1 Htr Hd) as Hrun.
  fold names in Hrun. cbn zeta in Hrun. fold received in Hrun.
  split; [|split].
  - intros Hvoid. by rewrite Hrun, Hvoid.
  - intros Hvoid r w' Hr. rewrite Hrun, Hvoid in Hr.
    destruct (getattr_literals out) as [lm|e]; [|discriminate].
    destruct (length names =? length lm)%nat eqn:Hlen; [|discriminate].
    destruct (comprehension _ names) as [vals|e] eqn:Hvals; [|discriminate].
    injection Hr as <- <-. split; [reflexivity|].
    apply comprehension_promises_inv in Hvals as (lits & Hall & ->).
    exists lm, lits. split; [reflexivity|]. split; [assumption|].
    pose proof (Forall2_length _ _ _ Hall) as Hl.
    split.
    + intros H1. destruct names as [|k [|? ?]]; try discriminate.
      destruct lits as [|l [|? ?]]; try discriminate.
      by exists k, l.
    + intros HN. split.
      * destruct names as [|k [|k' names']]; cbn in HN; try lia.
        destruct lits as [|l [|l' lits']]; try discriminate. reflexivity.
      * rewrite length_zip_with. lia.
  - intros Hvoid lm Hlm. rewrite Hrun, Hvoid, Hlm. split.
    + intros lits Hlen Hall. rewrite Hlen, Nat.eqb_refl.
      by rewrite (comprehension_promises _ _ _ Hall).
    + intros Hlen. destruct (Nat.eqb_spec (length names) (length lm)); [congruence|reflexivity].
Qed.
End LocalExecution.

(** ** PythonTask.dispatch_execute *)

Section Reconciliation.
Context `{Co : Collaborators}.
Implicit Types (self : PythonTask.t) (w : world) (v : pyval).

(** What [dispatch_execute] goes on to do once the body has returned [v]. *)
Lemma dispatch_execute_after_body self ctx lm w native_inputs v h' :
  literal_map_to_kwargs ctx lm (Interface.inputs (PythonTask.python_interface self))
  = Ok native_inputs ->
  PythonTask.execute self native_inputs (heap w) = (Ok v, h') ->
  PythonTask.dispatch_execute self ctx lm w =
    (if isinstance_LiteralMap v || isinstance_DynamicJobSpec v then mret v
     else
       let expected_output_names :=
         dict_keys (TypedInterface.outputs (PythonTask.interface self)) in
       if (length expected_output_names =? 1)%nat then
         k0 ← lift (match expected_output_names !! 0%nat with
                    | Some k => Ok k
                    | None => Raise (IndexError "list index out of range")
                    end);
         literals ← PythonTask.literals_loop self ctx [(k0, v)] [];
         mret (PLiteralMap literals)
       else if (length expected_output_names =? 0)%nat then
         mret (PVoidPromise (PythonTask.name self))
       else
         elems ← lift (enumerate v);
         as_map ← lift (PythonTask.native_outputs_as_map expected_output_names 0 elems []);
         literals ← PythonTask.literals_loop self ctx as_map [];
         mret (PLiteralMap literals))
    (after_body self w native_inputs v h').
Proof.
  intros Hin Hbody. unfold PythonTask.dispatch_execute, after_body.
  run. rewrite Hin. run. rewrite Hbody. reflexivity.
Qed.

(** C9. A value the body returns that is a LiteralMap or a DynamicJobSpec is
    what [dispatch_execute] returns, as it is and whatever outputs the
    interface declares: after the call of the body only the information
    record is added to the trace, so no value was translated to a literal
    and nothing was checked or raised. *)
Theorem dispatch_short_circuit self ctx lm w native_inputs v h' :
  literal_map_to_kwargs ctx lm (Interface.inputs (PythonTask.python_interface self))
  = Ok native_inputs ->
  PythonTask.execute self native_inputs (heap w) = (Ok v, h') ->
  isinstance_LiteralMap v || isinstance_DynamicJobSpec v = true ->
  PythonTask.dispatch_execute self ctx lm w = (Ok v, after_body self w native_inputs v h')
  /\ count_events is_Call_to_literal (trace (PythonTask.dispatch_execute self ctx lm w).2)
     = count_events is_Call_to_literal (trace w).
Proof.
  intros Hin Hbody Hv.
  rewrite (dispatch_execute_after_body _ _ _ _ _ _ _ Hin Hbody), Hv.
  split; reflexivity.
Qed.

(** C1, amended. With no declared output, [dispatch_execute] returns the
    VoidPromise of the task for every value the body returns that is neither
    a LiteralMap nor a DynamicJobSpec. *)
Theorem dispatch_no_outputs self ctx lm w native_inputs v h' :
  dict_keys (TypedInterface.outputs (PythonTask.interface self)) = [] ->
  literal_map_to_kwargs ctx lm (Interface.inputs (PythonTask.python_interface self))
  = Ok native_inputs ->
  PythonTask.execute self native_inputs (heap w) = (Ok v, h') ->
  isinstance_LiteralMap v = false ->
  isinstance_DynamicJobSpec v = false ->
  PythonTask.dispatch_execute self ctx lm w
  = (Ok (PVoidPromise (PythonTask.name self)), after_body self w native_inputs v h').
Proof.
  intros Hout Hin Hbody Hlm Hdj.
  rewrite (dispatch_execute_after_body _ _ _ _ _ _ _ Hin Hbody), Hlm, Hdj, Hout.
  reflexivity.
Qed.

(** C5. With exactly one declared output [k], of Python type [py_type] in
    the Python interface, a tuple returned by the body makes
    [dispatch_execute] raise the AssertionError whose message names the
    output, the task, the tuple received and the type expected; nothing is
    translated. *)
Theorem dispatch_single_output_tuple self ctx lm w native_inputs xs h' k py_type :
  dict_keys (TypedInterface.outputs (PythonTask.interface self)) = [k] ->
  dict_get k (Interface.outputs (PythonTask.python_interface self)) = Some py_type ->
  literal_map_to_kwargs ctx lm (Interface.inputs (PythonTask.python_interface self))
  = Ok native_inputs ->
  PythonTask.execute self native_inputs (heap w) = (Ok (PTuple xs), h') ->
  PythonTask.dispatch_execute self ctx lm w
  = (Raise (AssertionError
              ("Output(" +:+ k +:+ ") in task" +:+ PythonTask.name self
               +:+ " received a tuple " +:+ format_value (PTuple xs)
               +:+ ", instead of " +:+ format_type py_type)),
     after_body self w native_inputs (PTuple xs) h').
Proof.
  intros Hout Hty Hin Hbody.
  rewrite (dispatch_execute_after_body _ _ _ _ _ _ _ Hin Hbody), Hout. cbn.
  destruct (TypedInterface.outputs (PythonTask.interface self)) as [|[k' var] [|? ?]] eqn:Houts;
    try discriminate.
  injection Hout as ->.
  run. unfold PythonTask.get_type_for_output_var, getitem. rewrite Hty. cbn.
  rewrite bool_decide_eq_true_2 by reflexivity. reflexivity.
Qed.

(** C7, amended. When the body raises [e], [dispatch_execute] raises the
    same [e] to its caller after that single call of the body: nothing is
    retried, swallowed or put in its place. An [e] that is an instance of
    [Exception] is first recorded with [logger.exception]; one that is not
    (KeyboardInterrupt, SystemExit) passes without a record. *)
Theorem dispatch_body_exception self ctx lm w native_inputs e h' :
  literal_map_to_kwargs ctx lm (Interface.inputs (PythonTask.python_interface self))
  = Ok native_inputs ->
  PythonTask.execute self native_inputs (heap w) = (Raise e, h') ->
  PythonTask.dispatch_execute self ctx lm w =
    (Raise e,
     World (context w)
       ((if exn_is_Exception e
         then [Log ERROR ("Exception when executing " +:+ exn_msg e)] else [])
        ++ Call_execute (PythonTask.name self) native_inputs
        :: trace (before_body self w native_inputs))
       h' (registerable_entity w)).
Proof.
  intros Hin Hbody. unfold PythonTask.dispatch_execute, before_body.
  run. rewrite Hin. run. rewrite Hbody.
  destruct (exn_is_Exception e); reflexivity.
Qed.
End Reconciliation.

(** ** Binding the elements of a returned sequence to the declared outputs *)

Section PositionalBinding.
Context `{Co : Collaborators}.
Implicit Types (self : PythonTask.t) (w : world) (v : pyval).

(** With distinct names and no more elements than names, the comprehension
    pairs the names from position [i] on with the elements, in order. *)
Lemma native_outputs_as_map_from (names : list string) (elems : list pyval) :
  NoDup names ->
  forall (i : nat) (acc : dict pyval),
    dict_keys acc = take i names ->
    i + length elems <= length names ->
    PythonTask.native_outputs_as_map names i elems acc
    = Ok (acc ++ zip (drop i names) elems).
Proof.
  intros Hnd. induction elems as [|v elems IH]; intros i acc Hacc Hlen; cbn.
  - by rewrite zip_with_nil_r, app_nil_r.
  - cbn in Hlen.
    destruct (names !! i) as [k|] eqn:Hk; [|apply lookup_ge_None in Hk; lia].
    rewrite dict_set_fresh.
    + rewrite IH.
      * rewrite (drop_S _ _ _ Hk). cbn. by rewrite <- app_assoc.
      * rewrite dict_keys_app, Hacc. cbn. by rewrite (take_S_r _ _ _ Hk).
      * lia.
    + rewrite Hacc. intros Hin.
      apply list_elem_of_lookup in Hin as [j Hj].
      apply lookup_take_Some in Hj as [Hj Hlt].
      pose proof (NoDup_lookup _ _ _ _ Hnd Hj Hk). lia.
Qed.

(** With an element beyond the last name, the comprehension raises the
    IndexError of [expected_output_names[i]]. *)
Lemma native_outputs_as_map_IndexError (names : list string) (elems : list pyval) :
  forall (i : nat) (acc : dict pyval),
    i <= length names ->
    length names < i + length elems ->
    PythonTask.native_outputs_as_map names i elems acc
    = Raise (IndexError "list index out of range").
Proof.
  induction elems as [|v elems IH]; intros i acc Hi Hlen; cbn in *.
  - lia.
  - destruct (names !! i) as [k|] eqn:Hk; [|reflexivity].
    apply lookup_lt_Some in Hk. apply IH; lia.
Qed.

(** The loop translates every item in turn and stores the literal under the
    name of the item. *)
Lemma literals_loop_translates self ctx (items : list (string * pyval)) (lits : list Literal) :
  Forall2 (fun item lit =>
             exists var py_type,
               dict_get item.1 (TypedInterface.outputs (PythonTask.interface self)) = Some var
               /\ dict_get item.1 (Interface.outputs (PythonTask.python_interface self)) = Some py_type
               /\ isinstance_tuple item.2 = false
               /\ to_literal ctx item.2 py_type (Variable_.type var) = Ok lit)
          items lits ->
  NoDup items.*1 ->
  forall (acc : dict Literal) w,
    (forall k, k ∈ items.*1 -> k ∉ dict_keys acc) ->
    PythonTask.literals_loop self ctx items acc w
    = (Ok (acc ++ zip items.*1 lits),
       World (context w) (rev (Call_to_literal <$> items.*1) ++ trace w) (heap w)
         (registerable_entity w)).
Proof.
  induction 1 as [|[k v] lit items lits (var & py_type & Hvar & Hty & Htup & Hlit) _ IH];
    intros Hnd acc w Hfresh.
  - cbn. rewrite app_nil_r. by destruct w.
  - cbn in *. apply NoDup_cons in Hnd as [Hk Hnd].
    run. unfold PythonTask.get_type_for_output_var, getitem.
    rewrite Hvar, Hty, Htup. cbn. rewrite Hlit. 
    rewrite IH; [|assumption|].
    + cbn. rewrite dict_set_fresh by (apply Hfresh; left).
      rewrite <- !app_assoc. reflexivity.
    + intros k' Hk'. rewrite dict_set_fresh by (apply Hfresh; left).
      rewrite dict_keys_app. cbn. intros [Hin|Hin%list_elem_of_singleton]%elem_of_app.
      * eapply Hfresh; [right; eassumption | assumption].
      * congruence.
Qed.

Lemma fst_zip_take {A B} (l : list A) (k : list B) :
  length k <= length l -> (zip l k).*1 = take (length k) l.
Proof.
  revert k. induction l as [|x l IH]; intros [|y k] Hlen; cbn in *; try reflexivity; try lia.
  f_equal. apply IH. lia.
Qed.

Lemma zip_take_l {A B} (n : nat) (l : list A) (k : list B) :
  length k <= n -> zip (take n l) k = zip l k.
Proof.
  revert l k. induction n as [|n IH]; intros [|x l] [|y k] Hlen; cbn in *; try reflexivity; try lia.
  f_equal. apply IH. lia.
Qed.

Lemma enumerate_not_short_circuit v elems :
  enumerate v = Ok elems ->
  isinstance_LiteralMap v || isinstance_DynamicJobSpec v = false.
Proof. by destruct v. Qed.

(** With N > 1 declared outputs and a returned sequence of at most N
    elements that all translate, the literal map binds the i-th declared
    name, in the order of the interface, to the literal of the i-th element:
    the names are paired by position, never compared or sorted. *)
Lemma dispatch_binds_by_position self ctx lm w native_inputs v elems lits h' :
  let names := dict_keys (TypedInterface.outputs (PythonTask.interface self)) in
  NoDup names ->
  1 < length names ->
  literal_map_to_kwargs ctx lm (Interface.inputs (PythonTask.python_interface self))
  = Ok native_inputs ->
  PythonTask.execute self native_inputs (heap w) = (Ok v, h') ->
  enumerate v = Ok elems ->
  length elems <= length names ->
  Forall2 (fun item lit =>
             exists var py_type,
               dict_get item.1 (TypedInterface.outputs (PythonTask.interface self)) = Some var
               /\ dict_get item.1 (Interface.outputs (PythonTask.python_interface self)) = Some py_type
               /\ isinstance_tuple item.2 = false
               /\ to_literal ctx item.2 py_type (Variable_.type var) = Ok lit)
          (zip names elems) lits ->
  PythonTask.dispatch_execute self ctx lm w
  = (Ok (PLiteralMap (zip names lits)),
     World (context w)
       (rev (Call_to_literal <$> take (length elems) names)
        ++ trace (after_body self w native_inputs v h'))
       h' (registerable_entity w)).
Proof.
  intros names Hnd HN Hin Hbody Henum Hlen Hall.
  rewrite (dispatch_execute_after_body _ _ _ _ _ _ _ Hin Hbody).
  rewrite (enumerate_not_short_circuit _ _ Henum). cbn zeta. fold names.
  destruct (Nat.eqb_spec (length names) 1) as [?|_]; [lia|].
  destruct (Nat.eqb_spec (length names) 0) as [?|_]; [lia|].
  rewrite Henum.
  unfold mbind at 1, M_bind at 1, lift at 1.
  unfold mbind at 1, M_bind at 1, lift at 1.
  rewrite (native_outputs_as_map_from names elems Hnd 0 []); [|by rewrite take_0|lia].
  rewrite drop_0, app_nil_l.
  pose proof (Forall2_length _ _ _ Hall) as Hl.
  rewrite length_zip_with in Hl.
  unfold mbind at 1, M_bind at 1.
  rewrite (literals_loop_translates self ctx _ lits Hall).
  - rewrite (fst_zip_take names elems Hlen), app_nil_l.
    rewrite zip_take_l by lia. reflexivity.
  - rewrite (fst_zip_take names elems Hlen). eapply sublist_NoDup; [exact Hnd | apply sublist_take].
  - intros k _. cbn. apply not_elem_of_nil.
Qed.

(** With N > 1 declared outputs and a returned sequence of more than N
    elements, [dispatch_execute] raises the IndexError of the comprehension,
    before any translation. *)
Lemma dispatch_more_elements_than_outputs self ctx lm w native_inputs v elems h' :
  let names := dict_keys (TypedInterface.outputs (PythonTask.interface self)) in
  1 < length names ->
  literal_map_to_kwargs ctx lm (Interface.inputs (PythonTask.python_interface self))
  = Ok native_inputs ->
  PythonTask.execute self native_inputs (heap w) = (Ok v, h') ->
  enumerate v = Ok elems ->
  length names < length elems ->
  PythonTask.dispatch_execute self ctx lm w
  = (Raise (IndexError "list index out of range"), after_body self w native_inputs v h').
Proof.
  intros names HN Hin Hbody Henum Hlen.
  rewrite (dispatch_execute_after_body _ _ _ _ _ _ _ Hin Hbody).
  rewrite (enumerate_not_short_circuit _ _ Henum). cbn zeta. fold names.
  destruct (Nat.eqb_spec (length names) 1) as [?|_]; [lia|].
  destruct (Nat.eqb_spec (length names) 0) as [?|_]; [lia|].
  rewrite Henum.
  unfold mbind at 1, M_bind at 1, lift at 1.
  unfold mbind at 1, M_bind at 1, lift at 1.
  rewrite native_outputs_as_map_IndexError by lia. reflexivity.
Qed.
End PositionalBinding.

(** ** PythonTask.get_registerable_entity *)

Section Memoization.
Context `{Co : Collaborators} `{Gl : !PythonTask.GraphLinker}.
Implicit Types (self : PythonTask.t) (w : world).

(** A filled slot is returned as it is, and the world stays as it was. *)
Lemma get_registerable_entity_cached self w tk :
  registerable_entity w !! PythonTask.oid self = Some tk ->
  PythonTask.get_registerable_entity self w = (Ok (Some tk), w).
Proof.
  intros Hslot. unfold PythonTask.get_registerable_entity. run. by rewrite Hslot.
Qed.

(** The same under any context. *)
Lemma with_context_cached self w tk c :
  registerable_entity w !! PythonTask.oid self = Some tk ->
  with_context c (PythonTask.get_registerable_entity self) w = (Ok (Some tk), w).
Proof.
  intros Hslot. unfold with_context.
  rewrite (get_registerable_entity_cached self _ tk) by exact Hslot.
  by destruct w.
Qed.

(** Any number of calls on a filled slot, each under a context of its own,
    return the cached structure and leave the world as it was. *)
Lemma mapM_cached self w tk (ctxs : list FlyteContext.t) :
  registerable_entity w !! PythonTask.oid self = Some tk ->
  mapM (fun c => with_context c (PythonTask.get_registerable_entity self)) ctxs w
  = (Ok (replicate (length ctxs) (Some tk)), w).
Proof.
  intros Hslot. induction ctxs as [|c ctxs IH]; [reflexivity|].
  cbn. unfold mbind at 1, M_bind at 1.
  rewrite (with_context_cached self w tk c Hslot).
  unfold mbind at 1, M_bind at 1. rewrite IH. reflexivity.
Qed.

(** [get_task_structure] returns a structure; it reads the context and
    leaves its call in the trace. *)
Lemma get_task_structure_returns (self : Task.t) w :
  exists tk,
    Task.get_task_structure self w
    = (Ok tk,
       World (context w) (Call_current_context :: Call_get_task_structure (Task.oid self) :: trace w)
         (heap w) (registerable_entity w)).
Proof. eexists. unfold Task.get_task_structure. run. reflexivity. Qed.

(** On an empty slot the structure is computed, stored and returned. *)
Lemma get_registerable_entity_first self w tk wg :
  registerable_entity w !! PythonTask.oid self = None ->
  Task.get_task_structure (PythonTask.as_Task self) w = (Ok tk, wg) ->
  PythonTask.get_registerable_entity self w
  = (Ok (Some tk),
     World (context wg) (trace wg) (heap wg) (<[PythonTask.oid self := tk]> (registerable_entity wg))).
Proof.
  intros Hslot Hg. unfold PythonTask.get_registerable_entity.
  unfold mbind at 1, M_bind at 1, read_slot at 1. rewrite Hslot.
  unfold mbind at 1, M_bind at 1. rewrite Hg.
  run. by rewrite lookup_insert_eq.
Qed.

(** C8. On an instance whose slot is still empty, take any sequence of one
    or more calls of [get_registerable_entity], each under a context of its
    own. All of them return the same structure, the one [get_task_structure]
    builds under the context of the first call; it is stored in the slot;
    [get_task_structure] has been called exactly once for the instance over
    the whole sequence; and any later call, in any world whose slot still
    holds it, returns it and changes nothing. *)
Theorem get_registerable_entity_memoized self w c0 (ctxs : list FlyteContext.t) :
  registerable_entity w !! PythonTask.oid self = None ->
  exists tk w',
    (with_context c0 (Task.get_task_structure (PythonTask.as_Task self)) w).1 = Ok tk
    /\ mapM (fun c => with_context c (PythonTask.get_registerable_entity self)) (c0 :: ctxs) w
       = (Ok (replicate (S (length ctxs)) (Some tk)), w')
    /\ registerable_entity w' !! PythonTask.oid self = Some tk
    /\ count_events (is_Call_get_task_structure (PythonTask.oid self)) (trace w')
       = S (count_events (is_Call_get_task_structure (PythonTask.oid self)) (trace w))
    /\ forall w2, registerable_entity w2 !! PythonTask.oid self = Some tk ->
                  PythonTask.get_registerable_entity self w2 = (Ok (Some tk), w2).
Proof.
  intros Hslot.
  set (w0 := World c0 (trace w) (heap w) (registerable_entity w)).
  destruct (get_task_structure_returns (PythonTask.as_Task self) w0) as [tk Hg].
  pose proof (get_registerable_entity_first self w0 tk _ Hslot Hg) as Hfirst. cbn in Hfirst.
  set (w1 := World (context w) (Call_current_context
                :: Call_get_task_structure (PythonTask.oid self) :: trace w)
               (heap w) (<[PythonTask.oid self := tk]> (registerable_entity w))).
  assert (Hslot1 : registerable_entity w1 !! PythonTask.oid self = Some tk)
    by apply lookup_insert_eq.
  exists tk, w1. split; [|split; [|split; [|split]]].
  - unfold with_context. fold w0. by rewrite Hg.
  - cbn [mapM]. unfold mbind at 1, M_bind at 1.
    unfold with_context at 1. fold w0. rewrite Hfirst. cbn. fold w1.
    unfold mbind at 1, M_bind at 1.
    rewrite (mapM_cached self w1 tk ctxs Hslot1). reflexivity.
  - exact Hslot1.
  - cbn. unfold count_events. cbn. by rewrite bool_decide_eq_true_2.
  - intros w2 Hw2. by apply get_registerable_entity_cached.
Qed.
End Memoization.

(** ** A PythonTask under local execution *)

Section PythonTaskLocalExecution.
Context `{Co : Collaborators} `{Gl : !PythonTask.GraphLinker}.
Implicit Types (self : PythonTask.t) (w : world) (v : pyval).

(** An exception out of [dispatch_execute] goes through [_local_execute]. *)
Lemma local_execute_dispatch_raises self ctx kwargs w lits_in e w1 :
  translate_inputs_to_literals ctx kwargs (PythonTask.interface self)
    (PythonTask.get_input_types self) = Ok lits_in ->
  PythonTask.dispatch_execute self ctx lits_in
    (World (context w) (Call_translate_inputs_to_literals :: trace w) (heap w)
       (registerable_entity w)) = (Raise e, w1) ->
  Task._local_execute (PythonTask.as_Task self) ctx kwargs w = (Raise e, w1).
Proof.
  intros Htr Hd. unfold Task._local_execute.
  unfold mbind at 1, M_bind at 1, emit at 1.
  unfold mbind at 1, M_bind at 1, lift at 1. cbn [PythonTask.as_Task Task.interface Task.get_input_types].
  rewrite Htr.
  unfold mbind at 1, M_bind at 1. cbn [PythonTask.as_Task Task.dispatch_execute].
  by rewrite Hd.
Qed.

(** Under local execution, a returned sequence of more elements than the
    N > 1 declared outputs ends in the IndexError of [dispatch_execute]; the
    length check of [_local_execute] is not reached. *)
Lemma local_execute_more_elements_than_outputs self ctx kwargs w lits_in native_inputs v elems h' :
  let names := dict_keys (TypedInterface.outputs (PythonTask.interface self)) in
  let w0 := World (context w) (Call_translate_inputs_to_literals :: trace w) (heap w)
              (registerable_entity w) in
  1 < length names ->
  translate_inputs_to_literals ctx kwargs (PythonTask.interface self)
    (PythonTask.get_input_types self) = Ok lits_in ->
  literal_map_to_kwargs ctx lits_in (Interface.inputs (PythonTask.python_interface self))
  = Ok native_inputs ->
  PythonTask.execute self native_inputs (heap w) = (Ok v, h') ->
  enumerate v = Ok elems ->
  length names < length elems ->
  Task._local_execute (PythonTask.as_Task self) ctx kwargs w
  = (Raise (IndexError "list index out of range"), after_body self w0 native_inputs v h').
Proof.
  intros names w0 HN Htr Hin Hbody Henum Hlen.
  apply (local_execute_dispatch_raises self ctx kwargs w lits_in _ _ Htr).
  by apply (dispatch_more_elements_than_outputs self ctx lits_in w0 native_inputs v elems h').
Qed.

(** Under local execution, a returned sequence of fewer elements than the
    N > 1 declared outputs, all of which translate, ends in the length
    difference raised by [_local_execute]. *)
Lemma local_execute_fewer_elements_than_outputs self ctx kwargs w lits_in native_inputs v elems lits h' :
  let names := dict_keys (TypedInterface.outputs (PythonTask.interface self)) in
  let w0 := World (context w) (Call_translate_inputs_to_literals :: trace w) (heap w)
              (registerable_entity w) in
  NoDup names ->
  1 < length names ->
  translate_inputs_to_literals ctx kwargs (PythonTask.interface self)
    (PythonTask.get_input_types self) = Ok lits_in ->
  literal_map_to_kwargs ctx lits_in (Interface.inputs (PythonTask.python_interface self))
  = Ok native_inputs ->
  PythonTask.execute self native_inputs (heap w) = (Ok v, h') ->
  enumerate v = Ok elems ->
  length elems < length names ->
  Forall2 (fun item lit =>
             exists var py_type,
               dict_get item.1 (TypedInterface.outputs (PythonTask.interface self)) = Some var
               /\ dict_get item.1 (Interface.outputs (PythonTask.python_interface self)) = Some py_type
               /\ isinstance_tuple item.2 = false
               /\ to_literal ctx item.2 py_type (Variable_.type var) = Ok lit)
          (zip names elems) lits ->
  (Task._local_execute (PythonTask.as_Task self) ctx kwargs w).1
  = Raise (AssertionError ("Length difference " +:+ format_nat (length names)
                           +:+ " " +:+ format_nat (length elems))).
Proof.
  intros names w0 Hnd HN Htr Hin Hbody Henum Hlen Hall.
  pose proof (dispatch_binds_by_position self ctx lits_in w0 native_inputs v elems lits h'
                Hnd HN Hin Hbody Henum (Nat.lt_le_incl _ _ Hlen) Hall) as Hd.
  rewrite (local_execute_after_dispatch (PythonTask.as_Task self) ctx kwargs w lits_in _ _ Htr Hd).
  cbn [isinstance_VoidPromise getattr_literals PythonTask.as_Task Task.interface]. fold names.
  pose proof (Forall2_length _ _ _ Hall) as Hl. rewrite length_zip_with in Hl.
  assert (length (zip names lits) = length elems) as -> by (rewrite length_zip_with; lia).
  destruct (Nat.eqb_spec (length names) (length elems)); [lia|reflexivity].
Qed.
End PythonTaskLocalExecution.

(** * Concrete runs *)

Section Runs.
#[local] Existing Instance Demo.models.
#[local] Existing Instance Demo.collaborators.
#[local] Existing Instance Demo.graph_linker.
Import Demo.

Lemma call_rejects_positional_args_witness :
  Task.__call__ (PythonTask.as_Task add) [PInt 2; PInt 3] [] (start no_context)
  = (Raise (FlyteAssertion
       "In Flyte workflows, on keyword args are supported to pass inputs to workflows and tasks.Aborting execution as detected 2 positional args (...)"),
     start no_context).
Proof.
  rewrite (call_rejects_positional_args (PythonTask.as_Task add) [PInt 2; PInt 3] []
             (start no_context)) by (cbn; lia).
  reflexivity.
Defined.

Lemma call_skipped_branch_witness :
  Task.__call__ (PythonTask.as_Task add) [] [("x", PInt 2); ("y", PInt 3)]
    (start (local_context BranchEvalMode.BRANCH_SKIPPED))
  = (Ok PNone,
     World (local_context BranchEvalMode.BRANCH_SKIPPED) [Call_current_context] 0%nat ∅).
Proof.
  apply (call_skipped_branch (PythonTask.as_Task add) [("x", PInt 2); ("y", PInt 3)]
           (start (local_context BranchEvalMode.BRANCH_SKIPPED))
           (ExecutionState.Build ExecutionState.Mode.LOCAL_WORKFLOW_EXECUTION
              BranchEvalMode.BRANCH_SKIPPED)).
  - intros cs Hcs. discriminate Hcs.
  - reflexivity.
  - reflexivity.
  - reflexivity.
Defined.

Lemma call_with_compilation_mode_not_1_witness :
  Task.__call__ (PythonTask.as_Task add) [] [("x", PInt 2); ("y", PInt 3)]
    (start (stale_compilation None))
  = (Ok (PInt 5),
     World (stale_compilation None)
       [Call_execute "add" [("x", PInt 2); ("y", PInt 3)];
        Log WARNING "task run without context - executing raw function";
        Call_current_context] 1%nat ∅).
Proof.
  rewrite (call_with_compilation_mode_not_1 (PythonTask.as_Task add)
             [("x", PInt 2); ("y", PInt 3)] (start (stale_compilation None))).
  - reflexivity.
  - right. exists (CompilationState.Build 0). split; [reflexivity | discriminate].
Defined.

Lemma local_execute_shape_witness :
  Task._local_execute (PythonTask.as_Task pair) (local_context BranchEvalMode.BRANCH_ACTIVE) []
    (start (local_context BranchEvalMode.BRANCH_ACTIVE))
  = (Ok (PTuple [PPromise "b" (LInt 1); PPromise "a" (LStr "x")]),
     World (local_context BranchEvalMode.BRANCH_ACTIVE)
       [Call_to_literal "a"; Call_to_literal "b";
        Log INFO "Task executed successfully in user level, outputs: (...)";
        Call_execute "pair" [];
        Log INFO "Invoking pair with inputs: {...}";
        Call_literal_map_to_kwargs; Call_translate_inputs_to_literals] 1%nat ∅).
Proof.
  pose proof (local_execute_shape (PythonTask.as_Task pair)
                (local_context BranchEvalMode.BRANCH_ACTIVE) []
                (start (local_context BranchEvalMode.BRANCH_ACTIVE)) []
                (PLiteralMap [("b", LInt 1); ("a", LStr "x")])
                (World (local_context BranchEvalMode.BRANCH_ACTIVE)
                   [Call_to_literal "a"; Call_to_literal "b";
                    Log INFO "Task executed successfully in user level, outputs: (...)";
                    Call_execute "pair" [];
                    Log INFO "Invoking pair with inputs: {...}";
                    Call_literal_map_to_kwargs; Call_translate_inputs_to_literals] 1%nat ∅)
                eq_refl eq_refl) as (_ & _ & Hreceived).
  destruct (Hreceived eq_refl [("b", LInt 1); ("a", LStr "x")] eq_refl) as [Hok _].
  apply (Hok [LInt 1; LStr "x"]).
  - reflexivity.
  - repeat constructor.
Defined.

Lemma dispatch_short_circuit_witness :
  PythonTask.dispatch_execute noop no_context [] (start no_context)
  = (Ok (PLiteralMap []), after_body noop (start no_context) [] (PLiteralMap []) 1%nat).
Proof.
  apply (dispatch_short_circuit noop no_context [] (start no_context) [] (PLiteralMap []) 1%nat);
    reflexivity.
Defined.

Lemma dispatch_no_outputs_witness :
  PythonTask.dispatch_execute quiet no_context [] (start no_context)
  = (Ok (PVoidPromise "quiet"), after_body quiet (start no_context) [] (PInt 7) 1%nat).
Proof.
  apply (dispatch_no_outputs quiet no_context [] (start no_context) [] (PInt 7) 1%nat);
    reflexivity.
Defined.

(** C1, as stated, fails on [noop]: it declares no output, its body returns a
    literal map, and [dispatch_execute] returns that literal map, not the
    VoidPromise. *)
Lemma dispatch_no_outputs_literal_map :
  TypedInterface.outputs (PythonTask.interface noop) = []
  /\ PythonTask.execute noop [] 0%nat = (Ok (PLiteralMap []), 1%nat)
  /\ (PythonTask.dispatch_execute noop no_context [] (start no_context)).1 = Ok (PLiteralMap [])
  /\ (PythonTask.dispatch_execute noop no_context [] (start no_context)).1
     <> Ok (PVoidPromise (PythonTask.name noop)).
Proof. repeat split; try reflexivity. discriminate. Qed.

Lemma dispatch_single_output_tuple_witness :
  PythonTask.dispatch_execute tupled no_context [] (start no_context)
  = (Raise (AssertionError "Output(o) in tasktupled received a tuple (...), instead of int"),
     after_body tupled (start no_context) [] (PTuple [PInt 1; PInt 2]) 1%nat).
Proof.
  rewrite (dispatch_single_output_tuple tupled no_context [] (start no_context) []
             [PInt 1; PInt 2] 1%nat "o" int) by reflexivity.
  reflexivity.
Defined.

Lemma dispatch_body_exception_witness :
  PythonTask.dispatch_execute failing no_context [] (start no_context)
  = (Raise (Exn "ValueError" true "boom"),
     World no_context
       [Log ERROR "Exception when executing boom";
        Call_execute "failing" [];
        Log INFO "Invoking failing with inputs: {...}";
        Call_literal_map_to_kwargs] 1%nat ∅).
Proof.
  rewrite (dispatch_body_exception failing no_context [] (start no_context) []
             (Exn "ValueError" true "boom") 1%nat) by reflexivity.
  reflexivity.
Defined.

(** C7, as stated, fails on [exiting]: the SystemExit its body raises reaches
    the caller unchanged and no record of it is logged, the trace ending with
    the call of the body. *)
Lemma dispatch_system_exit_not_logged :
  PythonTask.execute exiting [] 0%nat = (Raise (SystemExit "3"), 1%nat)
  /\ PythonTask.dispatch_execute exiting no_context [] (start no_context)
     = (Raise (SystemExit "3"),
        World no_context
          [Call_execute "exiting" [];
           Log INFO "Invoking exiting with inputs: {...}";
           Call_literal_map_to_kwargs] 1%nat ∅)
  /\ count_events is_Log_ERROR
       (trace (PythonTask.dispatch_execute exiting no_context [] (start no_context)).2)
     = 0%nat.
Proof. repeat split. Qed.

Lemma get_registerable_entity_memoized_witness :
  exists tk w',
    (with_context no_context (Task.get_task_structure (PythonTask.as_Task add))
       (start no_context)).1 = Ok tk
    /\ mapM (fun c => with_context c (PythonTask.get_registerable_entity add))
         [no_context; stale_compilation None; local_context BranchEvalMode.BRANCH_ACTIVE]
         (start no_context)
       = (Ok (replicate 3 (Some tk)), w')
    /\ registerable_entity w' !! PythonTask.oid add = Some tk
    /\ count_events (is_Call_get_task_structure (PythonTask.oid add)) (trace w') = 1%nat
    /\ forall w2, registerable_entity w2 !! PythonTask.oid add = Some tk ->
                  PythonTask.get_registerable_entity add w2 = (Ok (Some tk), w2).
Proof.
  apply (get_registerable_entity_memoized add (start no_context) no_context
           [stale_compilation None; local_context BranchEvalMode.BRANCH_ACTIVE]).
  reflexivity.
Defined.

(** C2, at the input the claim itself names: two declared outputs and a body
    that returns three elements. Under local execution the call ends in the
    IndexError that the comprehension of [dispatch_execute] raises, right
    after the body has returned; the length check of [_local_execute] is
    never reached. *)
Theorem local_execute_three_for_two :
  dict_keys (TypedInterface.outputs (PythonTask.interface three_for_two)) = ["a"; "b"]
  /\ PythonTask.execute three_for_two [] 0%nat
     = (Ok (PTuple [PInt 1; PStr "x"; PStr "extra"]), 1%nat)
  /\ Task._local_execute (PythonTask.as_Task three_for_two)
       (local_context BranchEvalMode.BRANCH_ACTIVE) []
       (start (local_context BranchEvalMode.BRANCH_ACTIVE))
     = (Raise (IndexError "list index out of range"),
        World (local_context BranchEvalMode.BRANCH_ACTIVE)
          [Log INFO "Task executed successfully in user level, outputs: (...)";
           Call_execute "three_for_two" [];
           Log INFO "Invoking three_for_two with inputs: {...}";
           Call_literal_map_to_kwargs; Call_translate_inputs_to_literals] 1%nat ∅).
Proof. repeat split. Qed.

(** The other way round, a body that returns one element for two declared
    outputs, the length check does fire. *)
Lemma local_execute_one_for_two :
  (Task._local_execute (PythonTask.as_Task one_for_two)
     (local_context BranchEvalMode.BRANCH_ACTIVE) []
     (start (local_context BranchEvalMode.BRANCH_ACTIVE))).1
  = Raise (AssertionError "Length difference 2 1").
Proof. reflexivity. Qed.

(** [add] dispatched on the literals 2 and 3 yields the literal map with
    [sum] bound to 5, and under local execution a single Promise of 5. *)
Lemma dispatch_add :
  (PythonTask.dispatch_execute add no_context [("x", LInt 2); ("y", LInt 3)]
     (start no_context)).1
  = Ok (PLiteralMap [("sum", LInt 5)])
  /\ (Task._local_execute (PythonTask.as_Task add) (local_context BranchEvalMode.BRANCH_ACTIVE)
        [("x", PPromise "o0" (LInt 2)); ("y", PPromise "o0" (LInt 3))]
        (start (local_context BranchEvalMode.BRANCH_ACTIVE))).1
     = Ok (PPromise "sum" (LInt 5)).
Proof. split; reflexivity. Qed.

End Runs.

(** * Further properties *)

(** ** kwtypes *)

Section KwtypesProperties.
Context `{Mo : Models}.

Lemma fold_dict_set_fresh (kwargs acc : dict PyType) :
  NoDup (dict_keys (acc ++ kwargs)) ->
  fold_left (fun d '(k, v) => dict_set k v d) kwargs acc = acc ++ kwargs.
Proof.
  revert acc. induction kwargs as [|[k v] kwargs IH]; intros acc Hnd; cbn.
  - by rewrite app_nil_r.
  - rewrite dict_keys_app in Hnd. cbn in Hnd.
    rewrite dict_set_fresh.
    + rewrite IH; [by rewrite <- app_assoc|].
      rewrite <- app_assoc, dict_keys_app. exact Hnd.
    + apply NoDup_app in Hnd as (_ & Hdisj & _).
      intros Hin. apply (Hdisj k Hin). left.
Qed.

(** X1. On keyword arguments, whose names are distinct, [kwtypes] returns a
    dictionary with the same items in the same order. *)
Theorem kwtypes_keeps_items (kwargs : dict PyType) :
  NoDup (dict_keys kwargs) ->
  kwtypes kwargs = kwargs
  /\ forall k, dict_get k (kwtypes kwargs) = dict_get k kwargs.
Proof.
  intros Hnd. assert (kwtypes kwargs = kwargs) as ->; [|done].
  unfold kwtypes. by rewrite fold_dict_set_fresh.
Qed.
End KwtypesProperties.

(** ** The three ways of a call *)

Section Ways.
Context `{Co : Collaborators} `{Gl : !PythonTask.GraphLinker}.
Implicit Types (w : world) (kwargs : dict pyval).


(** X3. With compilation not in mode 1 and no local workflow execution (no
    execution state, or one in another mode) a keyword call warns and runs
    the body on the keyword arguments as they are: the outcome of the body,
    value or exception, is the outcome of the call, and the trace holds the
    warning and the call of the body, no translation and no error record. *)
Theorem call_runs_raw (self : Task.t) kwargs w r h' :
  (forall cs, FlyteContext.compilation_state (context w) = Some cs ->
              CompilationState.mode cs <> 1%Z) ->
  (forall es, FlyteContext.execution_state (context w) = Some es ->
              ExecutionState.mode es <> ExecutionState.Mode.LOCAL_WORKFLOW_EXECUTION) ->
  Task.execute self kwargs (heap w) = (r, h') ->
  Task.__call__ self [] kwargs w
  = (r, World (context w)
          (Call_execute (Task.name self) kwargs
           :: Log WARNING "task run without context - executing raw function"
           :: Call_current_context :: trace w)
          h' (registerable_entity w)).
Proof.
  intros Hc He Hbody. unfold Task.__call__. run.
  assert (match FlyteContext.compilation_state (context w) with
          | Some cs => bool_decide (CompilationState.mode cs = 1%Z)
          | None => false
          end = false) as ->.
  { destruct (FlyteContext.compilation_state (context w)) as [cs|]; [|reflexivity].
    apply bool_decide_eq_false_2. by apply Hc. }
  assert (match FlyteContext.execution_state (context w) with
          | Some es => bool_decide (ExecutionState.mode es
                                    = ExecutionState.Mode.LOCAL_WORKFLOW_EXECUTION)
          | None => false
          end = false) as ->.
  { destruct (FlyteContext.execution_state (context w)) as [es|]; [|reflexivity].
    apply bool_decide_eq_false_2. by apply He. }
  cbn. by rewrite Hbody.
Qed.

End Ways.

(** ** Errors of Task._local_execute *)

Section LocalExecutionErrors.
Context `{Co : Collaborators}.
Implicit Types (self : Task.t) (w : world) (kwargs : dict pyval).

(** The comprehension stops at the first name the literal map lacks. *)
Lemma comprehension_promises_KeyError (lm : dict Literal) (pre post : list string) (k : string) :
  Forall (fun k' => is_Some (dict_get k' lm)) pre ->
  dict_get k lm = None ->
  comprehension (fun var => lit ← getitem lm var; Ok (PPromise var lit)) (pre ++ k :: post)
  = Raise (KeyError k).
Proof.
  intros Hpre Hk. induction Hpre as [|k' pre [l Hl] _ IH]; cbn.
  - unfold getitem. by rewrite Hk.
  - rewrite IH. unfold getitem. by rewrite Hl.
Qed.

(** X12. When the translation of the inputs raises, [_local_execute] raises
    the same exception and stops there: [dispatch_execute] is not called, so
    the world only holds the call of the translation. *)
Theorem local_execute_input_translation_error self ctx kwargs w e :
  translate_inputs_to_literals ctx kwargs (Task.interface self) (Task.get_input_types self)
  = Raise e ->
  Task._local_execute self ctx kwargs w
  = (Raise e,
     World (context w) (Call_translate_inputs_to_literals :: trace w) (heap w)
       (registerable_entity w)).
Proof.
  intros Htr. unfold Task._local_execute. run. by rewrite Htr.
Qed.

(** X13. When [dispatch_execute] yields a literal map with as many literals
    as there are declared outputs but without a literal for one of the
    declared names, [_local_execute] raises the KeyError of the first
    declared name that is missing; the length check does not catch it. *)
Theorem local_execute_missing_output_name self ctx kwargs w lits_in lm w1 pre k post :
  translate_inputs_to_literals ctx kwargs (Task.interface self) (Task.get_input_types self)
  = Ok lits_in ->
  Task.dispatch_execute self ctx lits_in
    (World (context w) (Call_translate_inputs_to_literals :: trace w) (heap w)
       (registerable_entity w)) = (Ok (PLiteralMap lm), w1) ->
  dict_keys (TypedInterface.outputs (Task.interface self)) = pre ++ k :: post ->
  length lm = length (pre ++ k :: post) ->
  Forall (fun k' => is_Some (dict_get k' lm)) pre ->
  dict_get k lm = None ->
  Task._local_execute self ctx kwargs w = (Raise (KeyError k), w1).
Proof.
  intros Htr Hd Hnames Hlen Hpre Hk.
  rewrite (local_execute_after_dispatch self ctx kwargs w lits_in _ _ Htr Hd).
  cbn [isinstance_VoidPromise getattr_literals]. cbn zeta.
  rewrite Hnames, Hlen, Nat.eqb_refl.
  by rewrite (comprehension_promises_KeyError lm pre post k Hpre Hk).
Qed.

(** X19. An instance of [Task] itself cannot be executed locally: its
    [dispatch_execute] returns [None], which has no [literals], so
    [_local_execute] raises an AttributeError once the inputs are
    translated. *)
Theorem local_execute_base_task oid task_type name interface metadata ctx kwargs w lits_in :
  translate_inputs_to_literals ctx kwargs interface None = Ok lits_in ->
  exists e,
    exn_type e = "AttributeError"
    /\ Task._local_execute (Task.base oid task_type name interface metadata) ctx kwargs w
       = (Raise e,
          World (context w) (Call_translate_inputs_to_literals :: trace w) (heap w)
            (registerable_entity w)).
Proof.
  intros Htr. eexists. split; [|unfold Task._local_execute; run; rewrite Htr; reflexivity].
  reflexivity.
Qed.
End LocalExecutionErrors.

(** ** More on PythonTask.dispatch_execute *)

Section ReconciliationCases.
Context `{Co : Collaborators}.
Implicit Types (self : PythonTask.t) (w : world) (v : pyval).

(** X4. When the translation of the input literals raises,
    [dispatch_execute] raises the same exception and stops there: the body
    is not called and nothing is logged. *)
Theorem dispatch_input_translation_error self ctx lm w e :
  literal_map_to_kwargs ctx lm (Interface.inputs (PythonTask.python_interface self))
  = Raise e ->
  PythonTask.dispatch_execute self ctx lm w
  = (Raise e,
     World (context w) (Call_literal_map_to_kwargs :: trace w) (heap w)
       (registerable_entity w)).
Proof.
  intros Hin. unfold PythonTask.dispatch_execute. run. by rewrite Hin.
Qed.

(** X5. With exactly one declared output [k], a value of the body that is
    not a tuple (a list or [None] included) and not a LiteralMap or
    DynamicJobSpec is handed whole to [to_literal], once, with the Python
    type and the literal type declared for [k]: the result is the literal
    map that binds [k] alone to that literal, or the exception [to_literal]
    raises. *)
Theorem dispatch_single_output self ctx lm w native_inputs v h' k var py_type :
  TypedInterface.outputs (PythonTask.interface self) = [(k, var)] ->
  dict_get k (Interface.outputs (PythonTask.python_interface self)) = Some py_type ->
  literal_map_to_kwargs ctx lm (Interface.inputs (PythonTask.python_interface self))
  = Ok native_inputs ->
  PythonTask.execute self native_inputs (heap w) = (Ok v, h') ->
  isinstance_LiteralMap v || isinstance_DynamicJobSpec v = false ->
  isinstance_tuple v = false ->
  PythonTask.dispatch_execute self ctx lm w
  = (match to_literal ctx v py_type (Variable_.type var) with
     | Ok lit => Ok (PLiteralMap [(k, lit)])
     | Raise e => Raise e
     end,
     World (context w) (Call_to_literal k :: trace (after_body self w native_inputs v h'))
       h' (registerable_entity w)).
Proof.
  intros Hout Hty Hin Hbody Hsc Htup.
  rewrite (dispatch_execute_after_body _ _ _ _ _ _ _ Hin Hbody), Hsc, Hout. cbn.
  run. unfold PythonTask.get_type_for_output_var, getitem. rewrite Hout, Hty. cbn.
  rewrite bool_decide_eq_true_2 by reflexivity. cbn. rewrite Htup. cbn.
  by destruct (to_literal ctx v py_type (Variable_.type var)).
Qed.

(** X7. With N > 1 declared outputs, a value of the body that cannot be
    walked through and indexed (None, an integer, a Promise) makes
    [dispatch_execute] raise the exception of that iteration, right after
    the body has returned; nothing is translated. *)
Theorem dispatch_multiple_outputs_not_a_sequence self ctx lm w native_inputs v h' e :
  1 < length (dict_keys (TypedInterface.outputs (PythonTask.interface self))) ->
  literal_map_to_kwargs ctx lm (Interface.inputs (PythonTask.python_interface self))
  = Ok native_inputs ->
  PythonTask.execute self native_inputs (heap w) = (Ok v, h') ->
  isinstance_LiteralMap v || isinstance_DynamicJobSpec v = false ->
  enumerate v = Raise e ->
  PythonTask.dispatch_execute self ctx lm w
  = (Raise e, after_body self w native_inputs v h').
Proof.
  intros HN Hin Hbody Hsc Henum.
  rewrite (dispatch_execute_after_body _ _ _ _ _ _ _ Hin Hbody), Hsc. cbn zeta.
  destruct (Nat.eqb_spec (length (dict_keys (TypedInterface.outputs (PythonTask.interface self)))) 1)
    as [?|_]; [lia|].
  destruct (Nat.eqb_spec (length (dict_keys (TypedInterface.outputs (PythonTask.interface self)))) 0)
    as [?|_]; [lia|].
  rewrite Henum. reflexivity.
Qed.
End ReconciliationCases.

(** ** More on the binding by position *)

Section PositionalBindingCases.
Context `{Co : Collaborators}.
Implicit Types (self : PythonTask.t) (w : world) (v : pyval).

Lemma dict_get_zip {V} (names : list string) (vals : list V) (i : nat) (k : string) (x : V) :
  NoDup names ->
  names !! i = Some k ->
  vals !! i = Some x ->
  dict_get k (zip names vals) = Some x.
Proof.
  intros Hnd. revert vals i.
  induction Hnd as [|k0 names Hk0 Hnd IH]; intros vals i Hk Hx; [done|].
  destruct vals as [|x0 vals]; [done|].
  destruct i as [|i]; cbn in *.
  - injection Hk as ->. injection Hx as ->. by rewrite bool_decide_eq_true_2.
  - rewrite bool_decide_eq_false_2; [by eapply IH|].
    intros ->. apply Hk0. eapply list_elem_of_lookup_2. eassumption.
Qed.

Lemma zip_split_at {A B} (l : list A) (k : list B) (i : nat) (a : A) (b : B) :
  l !! i = Some a ->
  k !! i = Some b ->
  zip l k = zip (take i l) (take i k) ++ (a, b) :: zip (drop (S i) l) (drop (S i) k).
Proof.
  revert l k. induction i as [|i IH]; intros [|a0 l] [|b0 k] Ha Hb; try done.
  - cbn in *. injection Ha as ->. injection Hb as ->. by rewrite !drop_0.
  - cbn in *. f_equal. by apply IH.
Qed.

(** The loop over a list in two parts is the loop over the first part and
    then, if it came through, over the second. *)
Lemma literals_loop_app self ctx (pre rest : list (string * pyval)) :
  forall (acc : dict Literal) w,
    PythonTask.literals_loop self ctx (pre ++ rest) acc w
    = match PythonTask.literals_loop self ctx pre acc w with
      | (Ok acc', w') => PythonTask.literals_loop self ctx rest acc' w'
      | (Raise e, w') => (Raise e, w')
      end.
Proof.
  induction pre as [|[k x] pre IH]; intros acc w; [reflexivity|].
  cbn. run.
  destruct (getitem (TypedInterface.outputs (PythonTask.interface self)) k); [|reflexivity].
  destruct (PythonTask.get_type_for_output_var self k x); [|reflexivity].
  destruct (isinstance_tuple x); [reflexivity|].
  destruct (to_literal ctx x _ _); [|reflexivity].
  apply IH.
Qed.

(** X6. With N > 1 distinct declared outputs and a returned sequence of at
    most N elements that all translate, [dispatch_execute] returns a literal
    map whose keys are the first declared names, in the order of the
    interface, one per element, and in which the i-th declared name is bound
    to the literal of the i-th element. A shorter sequence is not an error
    here: the names past its end are simply absent. *)
Theorem dispatch_multiple_outputs self ctx lm w native_inputs v elems lits h' :
  let names := dict_keys (TypedInterface.outputs (PythonTask.interface self)) in
  NoDup names ->
  1 < length names ->
  literal_map_to_kwargs ctx lm (Interface.inputs (PythonTask.python_interface self))
  = Ok native_inputs ->
  PythonTask.execute self native_inputs (heap w) = (Ok v, h') ->
  enumerate v = Ok elems ->
  length elems <= length names ->
  Forall2 (fun item lit =>
             exists var py_type,
               dict_get item.1 (TypedInterface.outputs (PythonTask.interface self)) = Some var
               /\ dict_get item.1 (Interface.outputs (PythonTask.python_interface self)) = Some py_type
               /\ isinstance_tuple item.2 = false
               /\ to_literal ctx item.2 py_type (Variable_.type var) = Ok lit)
          (zip names elems) lits ->
  exists literals,
    (PythonTask.dispatch_execute self ctx lm w).1 = Ok (PLiteralMap literals)
    /\ dict_keys literals = take (length elems) names
    /\ (forall i k lit, names !! i = Some k -> lits !! i = Some lit ->
                        dict_get k literals = Some lit)
    /\ (forall k, k ∈ drop (length elems) names -> dict_get k literals = None).
Proof.
  intros names Hnd HN Hin Hbody Henum Hlen Hall.
  exists (zip names lits).
  rewrite (dispatch_binds_by_position self ctx lm w native_inputs v elems lits h'
             Hnd HN Hin Hbody Henum Hlen Hall).
  pose proof (Forall2_length _ _ _ Hall) as Hl. rewrite length_zip_with in Hl.
  assert (Hlits : length lits = length elems) by lia.
  split; [reflexivity|]. split; [|split].
  - unfold dict_keys. rewrite fst_zip_take by lia. by rewrite Hlits.
  - intros i k lit Hk Hlit. by eapply dict_get_zip.
  - intros k Hk.
    destruct (dict_get k (zip names lits)) as [lit|] eqn:Hget; [|reflexivity].
    exfalso.
    assert (Hin' : k ∈ dict_keys (zip names lits)).
    { clear -Hget. induction (zip names lits) as [|[k' l'] d IH]; [done|].
      cbn in *. case_bool_decide; [subst; left | right; by apply IH]. }
    unfold dict_keys in Hin'. rewrite fst_zip_take, Hlits in Hin' by lia.
    rewrite <- (take_drop (length elems) names) in Hnd.
    apply NoDup_app in Hnd as (_ & Hdisj & _). by apply (Hdisj k).
Qed.

(** How far [dispatch_execute] has come when the first [i] elements of a
    returned sequence are translated. *)
Lemma dispatch_execute_loop_split self ctx lm w native_inputs v elems lits h' i k x :
  let names := dict_keys (TypedInterface.outputs (PythonTask.interface self)) in
  NoDup names ->
  1 < length names ->
  literal_map_to_kwargs ctx lm (Interface.inputs (PythonTask.python_interface self))
  = Ok native_inputs ->
  PythonTask.execute self native_inputs (heap w) = (Ok v, h') ->
  enumerate v = Ok elems ->
  length elems <= length names ->
  names !! i = Some k ->
  elems !! i = Some x ->
  Forall2 (fun item lit =>
             exists var py_type,
               dict_get item.1 (TypedInterface.outputs (PythonTask.interface self)) = Some var
               /\ dict_get item.1 (Interface.outputs (PythonTask.python_interface self)) = Some py_type
               /\ isinstance_tuple item.2 = false
               /\ to_literal ctx item.2 py_type (Variable_.type var) = Ok lit)
          (zip (take i names) (take i elems)) lits ->
  PythonTask.dispatch_execute self ctx lm w
  = (literals ← PythonTask.literals_loop self ctx
                  ((k, x) :: zip (drop (S i) names) (drop (S i) elems))
                  (zip (take i names) lits);
     mret (PLiteralMap literals))
      (World (context w)
         (rev (Call_to_literal <$> take i names) ++ trace (after_body self w native_inputs v h'))
         h' (registerable_entity w)).
Proof.
  intros names Hnd HN Hin Hbody Henum Hlen Hk Hx Hall.
  rewrite (dispatch_execute_after_body _ _ _ _ _ _ _ Hin Hbody).
  rewrite (enumerate_not_short_circuit _ _ Henum). cbn zeta. fold names.
  destruct (Nat.eqb_spec (length names) 1) as [?|_]; [lia|].
  destruct (Nat.eqb_spec (length names) 0) as [?|_]; [lia|].
  rewrite Henum.
  unfold mbind at 1, M_bind at 1, lift at 1.
  unfold mbind at 1, M_bind at 1, lift at 1.
  rewrite (native_outputs_as_map_from names elems Hnd 0 []); [|by rewrite take_0|lia].
  rewrite drop_0, app_nil_l.
  rewrite (zip_split_at names elems i k x Hk Hx).
  unfold mbind at 1, M_bind at 1. rewrite literals_loop_app.
  pose proof (lookup_lt_Some _ _ _ Hk) as Hik.
  pose proof (lookup_lt_Some _ _ _ Hx) as Hix.
  assert (Hfst : (zip (take i names) (take i elems)).*1 = take i names).
  { apply fst_zip. rewrite !length_take. lia. }
  rewrite (literals_loop_translates self ctx _ lits Hall).
  - rewrite Hfst, app_nil_l. reflexivity.
  - rewrite Hfst. eapply sublist_NoDup; [exact Hnd | apply sublist_take].
  - intros k' _. cbn. apply not_elem_of_nil.
Qed.
(** X8. With N > 1 distinct declared outputs, when the element at position
    [i] of the returned sequence is the first that [to_literal] refuses,
    [dispatch_execute] raises the exception of [to_literal]: the elements
    before it have been translated, in order, the one at [i] has been tried,
    and the elements after it are not looked at. *)
Theorem dispatch_multiple_outputs_translation_error
    self ctx lm w native_inputs v elems lits h' i k x var py_type e :
  let names := dict_keys (TypedInterface.outputs (PythonTask.interface self)) in
  NoDup names ->
  1 < length names ->
  literal_map_to_kwargs ctx lm (Interface.inputs (PythonTask.python_interface self))
  = Ok native_inputs ->
  PythonTask.execute self native_inputs (heap w) = (Ok v, h') ->
  enumerate v = Ok elems ->
  length elems <= length names ->
  names !! i = Some k ->
  elems !! i = Some x ->
  Forall2 (fun item lit =>
             exists var py_type,
               dict_get item.1 (TypedInterface.outputs (PythonTask.interface self)) = Some var
               /\ dict_get item.1 (Interface.outputs (PythonTask.python_interface self)) = Some py_type
               /\ isinstance_tuple item.2 = false
               /\ to_literal ctx item.2 py_type (Variable_.type var) = Ok lit)
          (zip (take i names) (take i elems)) lits ->
  dict_get k (TypedInterface.outputs (PythonTask.interface self)) = Some var ->
  dict_get k (Interface.outputs (PythonTask.python_interface self)) = Some py_type ->
  isinstance_tuple x = false ->
  to_literal ctx x py_type (Variable_.type var) = Raise e ->
  PythonTask.dispatch_execute self ctx lm w
  = (Raise e,
     World (context w)
       (Call_to_literal k :: rev (Call_to_literal <$> take i names)
        ++ trace (after_body self w native_inputs v h'))
       h' (registerable_entity w)).
Proof.
  intros names Hnd HN Hin Hbody Henum Hlen Hk Hx Hall Hvar Hty Htup Hlit.
  rewrite (dispatch_execute_loop_split self ctx lm w native_inputs v elems lits h' i k x
             Hnd HN Hin Hbody Henum Hlen Hk Hx Hall).
  cbn. run. unfold PythonTask.get_type_for_output_var, getitem.
  rewrite Hvar, Hty. cbn. rewrite Htup. cbn. by rewrite Hlit.
Qed.

(** X9. With N > 1 distinct declared outputs, when the element at position
    [i] of the returned sequence is a tuple and the elements before it
    translate, [dispatch_execute] raises the AssertionError that names the
    i-th declared output, the task, the tuple and the declared type; the
    tuple is not handed to [to_literal]. *)
Theorem dispatch_multiple_outputs_tuple_element
    self ctx lm w native_inputs v elems lits h' i k xs var py_type :
  let names := dict_keys (TypedInterface.outputs (PythonTask.interface self)) in
  NoDup names ->
  1 < length names ->
  literal_map_to_kwargs ctx lm (Interface.inputs (PythonTask.python_interface self))
  = Ok native_inputs ->
  PythonTask.execute self native_inputs (heap w) = (Ok v, h') ->
  enumerate v = Ok elems ->
  length elems <= length names ->
  names !! i = Some k ->
  elems !! i = Some (PTuple xs) ->
  Forall2 (fun item lit =>
             exists var py_type,
               dict_get item.1 (TypedInterface.outputs (PythonTask.interface self)) = Some var
               /\ dict_get item.1 (Interface.outputs (PythonTask.python_interface self)) = Some py_type
               /\ isinstance_tuple item.2 = false
               /\ to_literal ctx item.2 py_type (Variable_.type var) = Ok lit)
          (zip (take i names) (take i elems)) lits ->
  dict_get k (TypedInterface.outputs (PythonTask.interface self)) = Some var ->
  dict_get k (Interface.outputs (PythonTask.python_interface self)) = Some py_type ->
  PythonTask.dispatch_execute self ctx lm w
  = (Raise (AssertionError
              ("Output(" +:+ k +:+ ") in task" +:+ PythonTask.name self
               +:+ " received a tuple " +:+ format_value (PTuple xs)
               +:+ ", instead of " +:+ format_type py_type)),
     World (context w)
       (rev (Call_to_literal <$> take i names)
        ++ trace (after_body self w native_inputs v h'))
       h' (registerable_entity w)).
Proof.
  intros names Hnd HN Hin Hbody Henum Hlen Hk Hx Hall Hvar Hty.
  rewrite (dispatch_execute_loop_split self ctx lm w native_inputs v elems lits h' i k
             (PTuple xs) Hnd HN Hin Hbody Henum Hlen Hk Hx Hall).
  cbn. run. unfold PythonTask.get_type_for_output_var, getitem.
  by rewrite Hvar, Hty.
Qed.
End PositionalBindingCases.

(** ** What a call leaves untouched *)

Section Frame.
Context `{Co : Collaborators} `{Gl : !PythonTask.GraphLinker}.
Implicit Types (self : PythonTask.t) (w : world) (v : pyval).

Lemma count_events_app (p : event -> bool) (evs tr : list event) :
  count_events p (evs ++ tr) = count_events p evs + count_events p tr.
Proof. unfold count_events. by rewrite List.filter_app, length_app. Qed.

(** The loop only adds calls of [to_literal] to the trace. *)
Lemma literals_loop_effects self ctx (items : list (string * pyval)) :
  forall (acc : dict Literal) w,
  exists evs,
    (PythonTask.literals_loop self ctx items acc w).2
    = World (context w) (evs ++ trace w) (heap w) (registerable_entity w)
    /\ count_events is_Call_execute evs = 0.
Proof.
  induction items as [|[k x] items IH]; intros acc w.
  - exists []. by destruct w.
  - cbn. run.
    destruct (getitem (TypedInterface.outputs (PythonTask.interface self)) k);
      [|exists []; by destruct w].
    destruct (PythonTask.get_type_for_output_var self k x); [|exists []; by destruct w].
    destruct (isinstance_tuple x); [exists []; by destruct w|].
    destruct (to_literal ctx x _ _) as [lit|e]; [|by exists [Call_to_literal k]].
    destruct (IH (dict_set k lit acc)
                (World (context w) (Call_to_literal k :: trace w) (heap w)
                   (registerable_entity w))) as (evs & -> & Hevs).
    exists (evs ++ [Call_to_literal k]). cbn. rewrite <- app_assoc. split; [reflexivity|].
    rewrite count_events_app, Hevs. reflexivity.
Qed.

(** What [dispatch_execute] does to the world, on every path. *)
Lemma dispatch_execute_effects self ctx lm w :
  exists evs h,
    (PythonTask.dispatch_execute self ctx lm w).2
    = World (context w) (evs ++ trace w) h (registerable_entity w)
    /\ count_events is_Call_execute evs
       = match literal_map_to_kwargs ctx lm
                 (Interface.inputs (PythonTask.python_interface self)) with
         | Ok _ => 1
         | Raise _ => 0
         end
    /\ h = match literal_map_to_kwargs ctx lm
                   (Interface.inputs (PythonTask.python_interface self)) with
           | Ok native_inputs => (PythonTask.execute self native_inputs (heap w)).2
           | Raise _ => heap w
           end.
Proof.
  destruct (literal_map_to_kwargs ctx lm _) as [native_inputs|e] eqn:Hin.
  - destruct (PythonTask.execute self native_inputs (heap w)) as [[v|e] h'] eqn:Hbody.
    + rewrite (dispatch_execute_after_body _ _ _ _ _ _ _ Hin Hbody).
      assert (Hstay : exists evs,
                after_body self w native_inputs v h'
                = World (context w) (evs ++ trace w) h' (registerable_entity w)
                /\ count_events is_Call_execute evs = 1).
      { eexists [_; _; _; _]. split; reflexivity. }
      assert (Hloop : forall items,
                exists evs, ((literals ← PythonTask.literals_loop self ctx items [];
                              mret (PLiteralMap literals))
                               (after_body self w native_inputs v h')).2
                            = World (context w) (evs ++ trace w) h' (registerable_entity w)
                            /\ count_events is_Call_execute evs = 1).
      { intros items.
        destruct (literals_loop_effects self ctx items []
                    (after_body self w native_inputs v h')) as (evs & Hl & Hc).
        destruct Hstay as (evs0 & Hw2 & Hc0).
        exists (evs ++ evs0). rewrite count_events_app, Hc, Hc0. split; [|reflexivity].
        unfold mbind, M_bind.
        destruct (PythonTask.literals_loop self ctx items []
                    (after_body self w native_inputs v h')) as [[literals|e] w3];
          cbn [snd] in *; rewrite Hl, Hw2; cbn; by rewrite <- app_assoc. }
      destruct (isinstance_LiteralMap v || isinstance_DynamicJobSpec v).
      { destruct Hstay as (evs & ? & ?). by exists evs, h'. }
      cbn zeta.
      destruct (length _ =? 1)%nat.
      { unfold mbind at 1, M_bind at 1, lift at 1.
        destruct (dict_keys _ !! 0) as [k0|].
        - destruct (Hloop [(k0, v)]) as (evs & ? & ?). by exists evs, h'.
        - destruct Hstay as (evs & ? & ?). by exists evs, h'. }
      destruct (length _ =? 0)%nat.
      { destruct Hstay as (evs & ? & ?). by exists evs, h'. }
      unfold mbind at 1, M_bind at 1, lift at 1.
      destruct (enumerate v) as [elems|e].
      2: { destruct Hstay as (evs & ? & ?). by exists evs, h'. }
      unfold mbind at 1, M_bind at 1, lift at 1.
      destruct (PythonTask.native_outputs_as_map _ 0 elems []) as [as_map|e].
      2: { destruct Hstay as (evs & ? & ?). by exists evs, h'. }
      destruct (Hloop as_map) as (evs & ? & ?). by exists evs, h'.
    + unfold PythonTask.dispatch_execute. run. rewrite Hin. run. rewrite Hbody.
      destruct (exn_is_Exception e).
      * eexists [_; _; _; _], h'. repeat split.
      * eexists [_; _; _], h'. repeat split.
  - unfold PythonTask.dispatch_execute. run. rewrite Hin.
    eexists [_], (heap w). repeat split.
Qed.
(** X10. On every path of [dispatch_execute] the body is called exactly
    once when the input literals translate and not at all when they do not;
    the code itself (the translator and the body keeping to their own state)
    writes neither the ambient context nor a cache slot, and only adds to
    the trace. *)
Theorem dispatch_execute_calls_body_once self ctx lm w :
  let w' := (PythonTask.dispatch_execute self ctx lm w).2 in
  context w' = context w
  /\ registerable_entity w' = registerable_entity w
  /\ trace w `suffix_of` trace w'
  /\ count_events is_Call_execute (trace w')
     = count_events is_Call_execute (trace w)
       + match literal_map_to_kwargs ctx lm
                 (Interface.inputs (PythonTask.python_interface self)) with
         | Ok _ => 1
         | Raise _ => 0
         end.
Proof.
  destruct (dispatch_execute_effects self ctx lm w) as (evs & h & Hw' & Hc & _).
  cbn zeta. rewrite Hw'. cbn [context trace heap registerable_entity]. repeat split.
  - by exists evs.
  - rewrite count_events_app, Hc. lia.
Qed.

(** What [_local_execute] does to the world when the task is a PythonTask. *)
Lemma local_execute_effects self ctx kwargs w :
  exists evs h,
    (Task._local_execute (PythonTask.as_Task self) ctx kwargs w).2
    = World (context w) (evs ++ trace w) h (registerable_entity w)
    /\ count_events is_Call_execute evs <= 1.
Proof.
  unfold Task._local_execute.
  unfold mbind at 1, M_bind at 1, emit at 1.
  unfold mbind at 1, M_bind at 1, lift at 1.
  destruct (translate_inputs_to_literals ctx kwargs _ _) as [lits_in|e].
  2: { eexists [_], (heap w). split; [reflexivity | cbn; lia]. }
  unfold mbind at 1, M_bind at 1. cbn [PythonTask.as_Task Task.dispatch_execute].
  destruct (dispatch_execute_effects self ctx lits_in
              (World (context w) (Call_translate_inputs_to_literals :: trace w) (heap w)
                 (registerable_entity w))) as (evs & h & Hw' & Hc & _).
  assert (Hle : count_events is_Call_execute (evs ++ [Call_translate_inputs_to_literals]) <= 1).
  { rewrite count_events_app, Hc. destruct (literal_map_to_kwargs _ _ _); cbn; lia. }
  destruct (PythonTask.dispatch_execute self ctx lits_in _) as [[out|e] w1]; cbn [snd] in Hw';
    subst w1; cbn [context trace heap registerable_entity] in *.
  2: { exists (evs ++ [Call_translate_inputs_to_literals]), h. by rewrite <- app_assoc. }
  exists (evs ++ [Call_translate_inputs_to_literals]), h. split; [|exact Hle].
  rewrite <- app_assoc. cbn [app].
  destruct (isinstance_VoidPromise out); [reflexivity|].
  unfold mbind at 1, M_bind at 1, lift at 1.
  destruct (getattr_literals out) as [lm|e]; [|reflexivity].
  cbn zeta. destruct (negb _); [reflexivity|].
  unfold mbind at 1, M_bind at 1, lift at 1.
  by destruct (comprehension _ _).
Qed.

(** What a call of a PythonTask does to the world, on every path. *)
Lemma call_effects self args kwargs w :
  exists evs h,
    (Task.__call__ (PythonTask.as_Task self) args kwargs w).2
    = World (context w) (evs ++ trace w) h (registerable_entity w)
    /\ count_events is_Call_execute evs <= 1.
Proof.
  unfold Task.__call__.
  destruct (0 <? length args)%nat.
  { exists [], (heap w). split; [by destruct w | cbn; lia]. }
  unfold mbind at 1, M_bind at 1, current_context at 1. cbn beta iota.
  destruct (match FlyteContext.compilation_state (context w) with
            | Some cs => bool_decide (CompilationState.mode cs = 1%Z)
            | None => false
            end).
  { cbn [PythonTask.as_Task Task.compile]. unfold PythonTask.compile. run.
    destruct (PythonTask.create_and_link_node _ _ _ _ _ _ _) as [r h].
    eexists [_; _], h. split; [reflexivity | cbn; lia]. }
  destruct (match FlyteContext.execution_state (context w) with
            | Some es => bool_decide (ExecutionState.mode es
                                      = ExecutionState.Mode.LOCAL_WORKFLOW_EXECUTION)
            | None => false
            end).
  - destruct (match FlyteContext.execution_state (context w) with
              | Some es => bool_decide (ExecutionState.branch_eval_mode es
                                        = BranchEvalMode.BRANCH_SKIPPED)
              | None => false
              end).
    + eexists [_], (heap w). split; [reflexivity | cbn; lia].
    + destruct (local_execute_effects self (context w) kwargs
                  (World (context w) (Call_current_context :: trace w) (heap w)
                     (registerable_entity w))) as (evs & h & -> & Hc).
      exists (evs ++ [Call_current_context]), h. cbn. rewrite <- app_assoc.
      split; [reflexivity|]. rewrite count_events_app. cbn. lia.
  - run. destruct (PythonTask.execute self kwargs (heap w)) as [r h].
    eexists [_; _; _], h. split; [reflexivity | cbn; lia].
Qed.

(** X11. A call of a PythonTask, whatever its arguments and whatever the
    context says, calls the body at most once; the code itself (the graph
    linker, the translator and the body keeping to their own state) writes
    neither the ambient context nor a cache slot, and only adds to the
    trace. *)
Theorem call_leaves_context_and_slots self args kwargs w :
  let w' := (Task.__call__ (PythonTask.as_Task self) args kwargs w).2 in
  context w' = context w
  /\ registerable_entity w' = registerable_entity w
  /\ trace w `suffix_of` trace w'
  /\ count_events is_Call_execute (trace w')
     <= S (count_events is_Call_execute (trace w)).
Proof.
  destruct (call_effects self args kwargs w) as (evs & h & Hw' & Hc).
  cbn zeta. rewrite Hw'. cbn [context trace heap registerable_entity]. repeat split.
  - by exists evs.
  - rewrite count_events_app. lia.
Qed.
End Frame.

(** ** More on the cache of the registerable structure *)

Section MemoizationCases.
Context `{Co : Collaborators} `{Gl : !PythonTask.GraphLinker}.
Implicit Types (self : PythonTask.t) (w : world).

(** X16. [get_registerable_entity] on one instance leaves the slot of every
    other instance, the heap of the bodies and the ambient context as they
    were, and calls no body. *)
Theorem get_registerable_entity_frame self w (oid' : nat) :
  oid' <> PythonTask.oid self ->
  let w' := (PythonTask.get_registerable_entity self w).2 in
  registerable_entity w' !! oid' = registerable_entity w !! oid'
  /\ heap w' = heap w
  /\ context w' = context w
  /\ count_events is_Call_execute (trace w') = count_events is_Call_execute (trace w).
Proof.
  intros Hne. cbn zeta.
  destruct (registerable_entity w !! PythonTask.oid self) as [tk|] eqn:Hslot.
  - by rewrite (get_registerable_entity_cached self w tk Hslot).
  - destruct (get_task_structure_returns (PythonTask.as_Task self) w) as [tk Hg].
    rewrite (get_registerable_entity_first self w tk _ Hslot Hg). cbn.
    repeat split. by rewrite lookup_insert_ne.
Qed.

(** X17. The structure an instance hands out is the one of the first call:
    type, metadata and interface of the task, no custom payload and no
    container, and an identifier with the project, domain and version of the
    registration settings current at that first call and the name of the
    task, whatever identifier the new SdkTask started with. Later calls
    return it unchanged under any other settings. *)
Theorem get_registerable_entity_identity self w c0 (ctxs : list FlyteContext.t) :
  registerable_entity w !! PythonTask.oid self = None ->
  let settings := FlyteContext.registration_settings c0 in
  let tk :=
    SdkTask.Build (PythonTask.task_type self) (PythonTask.metadata self)
      (PythonTask.interface self) None None
      (Identifier.Build (Identifier.resource_type sdk_task_identifier)
         (RegistrationSettings.project settings) (RegistrationSettings.domain settings)
         (PythonTask.name self) (RegistrationSettings.version settings)) in
  (mapM (fun c => with_context c (PythonTask.get_registerable_entity self)) (c0 :: ctxs) w).1
  = Ok (replicate (S (length ctxs)) (Some tk)).
Proof.
  intros Hslot settings tk.
  set (w0 := World c0 (trace w) (heap w) (registerable_entity w)).
  assert (Hg : Task.get_task_structure (PythonTask.as_Task self) w0
               = (Ok tk, World c0 (Call_current_context
                                   :: Call_get_task_structure (PythonTask.oid self) :: trace w)
                           (heap w) (registerable_entity w))) by reflexivity.
  pose proof (get_registerable_entity_first self w0 tk _ Hslot Hg) as Hfirst. cbn in Hfirst.
  cbn [mapM]. unfold mbind at 1, M_bind at 1.
  unfold with_context at 1. fold w0. rewrite Hfirst. cbn [context trace heap registerable_entity].
  unfold mbind at 1, M_bind at 1.
  rewrite (mapM_cached self _ tk ctxs); [reflexivity|].
  apply lookup_insert_eq.
Qed.
End MemoizationCases.

(** ** More on a PythonTask under local execution *)

Section PythonTaskLocalExecutionCases.
Context `{Co : Collaborators} `{Gl : !PythonTask.GraphLinker}.
Implicit Types (self : PythonTask.t) (w : world) (v : pyval).

(** X14. With N > 1 distinct declared outputs and a returned sequence of
    fewer elements, all of which translate, [dispatch_execute] on its own
    returns normally, with a literal map of only as many literals as there
    were elements; it is [_local_execute] that refuses it, raising the
    length difference with the two counts. *)
Theorem local_execute_fewer_elements self ctx kwargs w lits_in native_inputs v elems lits h' :
  let names := dict_keys (TypedInterface.outputs (PythonTask.interface self)) in
  let w0 := World (context w) (Call_translate_inputs_to_literals :: trace w) (heap w)
              (registerable_entity w) in
  NoDup names ->
  1 < length names ->
  translate_inputs_to_literals ctx kwargs (PythonTask.interface self)
    (PythonTask.get_input_types self) = Ok lits_in ->
  literal_map_to_kwargs ctx lits_in (Interface.inputs (PythonTask.python_interface self))
  = Ok native_inputs ->
  PythonTask.execute self native_inputs (heap w) = (Ok v, h') ->
  enumerate v = Ok elems ->
  length elems < length names ->
  Forall2 (fun item lit =>
             exists var py_type,
               dict_get item.1 (TypedInterface.outputs (PythonTask.interface self)) = Some var
               /\ dict_get item.1 (Interface.outputs (PythonTask.python_interface self)) = Some py_type
               /\ isinstance_tuple item.2 = false
               /\ to_literal ctx item.2 py_type (Variable_.type var) = Ok lit)
          (zip names elems) lits ->
  (PythonTask.dispatch_execute self ctx lits_in w0).1 = Ok (PLiteralMap (zip names lits))
  /\ length (zip names lits) = length elems
  /\ (Task._local_execute (PythonTask.as_Task self) ctx kwargs w).1
     = Raise (AssertionError ("Length difference " +:+ format_nat (length names)
                              +:+ " " +:+ format_nat (length elems))).
Proof.
  intros names w0 Hnd HN Htr Hin Hbody Henum Hlen Hall.
  split; [|split].
  - by rewrite (dispatch_binds_by_position self ctx lits_in w0 native_inputs v elems lits h'
                  Hnd HN Hin Hbody Henum (Nat.lt_le_incl _ _ Hlen) Hall).
  - pose proof (Forall2_length _ _ _ Hall) as Hl. rewrite length_zip_with in Hl.
    rewrite length_zip_with. fold names in Hl |- *. lia.
  - by apply (local_execute_fewer_elements_than_outputs self ctx kwargs w lits_in
                native_inputs v elems lits h').
Qed.

End PythonTaskLocalExecutionCases.

(** * More concrete runs *)

Section MoreRuns.
#[local] Existing Instance Demo.models.
#[local] Existing Instance Demo.collaborators.
#[local] Existing Instance Demo.graph_linker.
Import Demo.

Ltac discharge :=
  first
    [ reflexivity
    | cbn; lia
    | apply NoDup_ListNoDup; repeat constructor; cbn; intuition discriminate
    | repeat constructor; cbn; eexists _, _; repeat split; reflexivity ].

Lemma kwtypes_keeps_items_witness :
  @kwtypes models [("x", int); ("y", str)] = [("x", int); ("y", str)]
  /\ forall k, dict_get k (@kwtypes models [("x", int); ("y", str)])
               = dict_get k [("x", int); ("y", str)].
Proof.
  apply (@kwtypes_keeps_items models [("x", int); ("y", str)]).
  apply NoDup_ListNoDup. repeat constructor; cbn; intuition discriminate.
Defined.


Lemma call_runs_raw_witness :
  Task.__call__ (PythonTask.as_Task add) [] [("x", PInt 2); ("y", PInt 3)]
    (start task_execution)
  = (Ok (PInt 5),
     World task_execution
       [Call_execute "add" [("x", PInt 2); ("y", PInt 3)];
        Log WARNING "task run without context - executing raw function";
        Call_current_context] 1%nat ∅).
Proof.
  apply (call_runs_raw (PythonTask.as_Task add) [("x", PInt 2); ("y", PInt 3)]
           (start task_execution) (Ok (PInt 5)) 1%nat).
  - intros cs Hcs. discriminate Hcs.
  - intros es Hes. injection Hes as <-. discriminate.
  - reflexivity.
Defined.


Lemma local_execute_input_translation_error_witness :
  Task._local_execute (PythonTask.as_Task add) (local_context BranchEvalMode.BRANCH_ACTIVE)
    [("x", PInt 2); ("y", PNone)] (start (local_context BranchEvalMode.BRANCH_ACTIVE))
  = (Raise (TypeError "no literal for this value"),
     World (local_context BranchEvalMode.BRANCH_ACTIVE)
       [Call_translate_inputs_to_literals] 0%nat ∅).
Proof.
  apply (local_execute_input_translation_error (PythonTask.as_Task add)
           (local_context BranchEvalMode.BRANCH_ACTIVE) [("x", PInt 2); ("y", PNone)]
           (start (local_context BranchEvalMode.BRANCH_ACTIVE))).
  reflexivity.
Defined.

Lemma local_execute_missing_output_name_witness :
  Task._local_execute (PythonTask.as_Task wrong_key)
    (local_context BranchEvalMode.BRANCH_ACTIVE) []
    (start (local_context BranchEvalMode.BRANCH_ACTIVE))
  = (Raise (KeyError "o"),
     after_body wrong_key
       (World (local_context BranchEvalMode.BRANCH_ACTIVE)
          [Call_translate_inputs_to_literals] 0%nat ∅)
       [] (PLiteralMap [("p", LInt 1)]) 1%nat).
Proof.
  apply (local_execute_missing_output_name (PythonTask.as_Task wrong_key)
           (local_context BranchEvalMode.BRANCH_ACTIVE) []
           (start (local_context BranchEvalMode.BRANCH_ACTIVE)) []
           [("p", LInt 1)] _ [] "o" []); try reflexivity.
  constructor.
Defined.

Lemma local_execute_base_task_witness :
  exists e,
    exn_type e = "AttributeError"
    /\ Task._local_execute bare (local_context BranchEvalMode.BRANCH_ACTIVE) []
         (start (local_context BranchEvalMode.BRANCH_ACTIVE))
       = (Raise e,
          World (local_context BranchEvalMode.BRANCH_ACTIVE)
            [Call_translate_inputs_to_literals] 0%nat ∅).
Proof.
  apply (local_execute_base_task 14 "bare-task" "bare"
           (TypedInterface.Build [] (typed [("o", int)])) (TaskMetadata.Build 0 0)
           (local_context BranchEvalMode.BRANCH_ACTIVE) []
           (start (local_context BranchEvalMode.BRANCH_ACTIVE)) []).
  reflexivity.
Defined.

Lemma dispatch_input_translation_error_witness :
  @PythonTask.dispatch_execute models strict_collaborators add no_context [("x", LInt 2)]
    (start no_context)
  = (Raise (KeyError "y"), World no_context [Call_literal_map_to_kwargs] 0%nat ∅).
Proof.
  apply (@dispatch_input_translation_error models strict_collaborators add no_context
           [("x", LInt 2)] (start no_context)).
  reflexivity.
Defined.

Lemma dispatch_single_output_witness :
  PythonTask.dispatch_execute add no_context [("x", LInt 2); ("y", LInt 3)] (start no_context)
  = (Ok (PLiteralMap [("sum", LInt 5)]),
     World no_context
       (Call_to_literal "sum"
        :: trace (after_body add (start no_context) [("x", PInt 2); ("y", PInt 3)] (PInt 5) 1%nat))
       1%nat ∅).
Proof.
  rewrite (dispatch_single_output add no_context [("x", LInt 2); ("y", LInt 3)]
             (start no_context) [("x", PInt 2); ("y", PInt 3)] (PInt 5) 1%nat "sum"
             (@Variable_.Build models int "") int) by reflexivity.
  reflexivity.
Defined.

Lemma dispatch_multiple_outputs_witness :
  exists literals,
    (PythonTask.dispatch_execute pair no_context [] (start no_context)).1
    = Ok (PLiteralMap literals)
    /\ dict_keys literals = ["b"; "a"]
    /\ (forall i k lit, ["b"; "a"] !! i = Some k -> [LInt 1; LStr "x"] !! i = Some lit ->
                        dict_get k literals = Some lit)
    /\ (forall k, k ∈ @nil string -> dict_get k literals = None).
Proof.
  apply (dispatch_multiple_outputs pair no_context [] (start no_context) []
           (PTuple [PInt 1; PStr "x"]) [PInt 1; PStr "x"] [LInt 1; LStr "x"] 1%nat); discharge.
Defined.

Lemma dispatch_multiple_outputs_not_a_sequence_witness :
  PythonTask.dispatch_execute none_for_two no_context [] (start no_context)
  = (Raise (TypeError "object is not iterable"),
     after_body none_for_two (start no_context) [] PNone 1%nat).
Proof.
  apply (dispatch_multiple_outputs_not_a_sequence none_for_two no_context []
           (start no_context) [] PNone 1%nat); try reflexivity.
  cbn. lia.
Defined.

Lemma dispatch_multiple_outputs_translation_error_witness :
  PythonTask.dispatch_execute second_fails no_context [] (start no_context)
  = (Raise (TypeError "no literal for this value"),
     World no_context
       (Call_to_literal "b" :: Call_to_literal "a"
        :: trace (after_body second_fails (start no_context) []
                    (PList [PInt 1; PNone; PStr "x"]) 1%nat))
       1%nat ∅).
Proof.
  apply (dispatch_multiple_outputs_translation_error second_fails no_context []
           (start no_context) [] (PList [PInt 1; PNone; PStr "x"])
           [PInt 1; PNone; PStr "x"] [LInt 1] 1%nat 1%nat "b" PNone
           (@Variable_.Build models int "") int); discharge.
Defined.

Lemma dispatch_multiple_outputs_tuple_element_witness :
  PythonTask.dispatch_execute nested no_context [] (start no_context)
  = (Raise (AssertionError "Output(b) in tasknested received a tuple (...), instead of int"),
     World no_context
       (Call_to_literal "a"
        :: trace (after_body nested (start no_context) []
                    (PTuple [PInt 1; PTuple [PInt 2; PInt 3]]) 1%nat))
       1%nat ∅).
Proof.
  rewrite (dispatch_multiple_outputs_tuple_element nested no_context []
             (start no_context) [] (PTuple [PInt 1; PTuple [PInt 2; PInt 3]])
             [PInt 1; PTuple [PInt 2; PInt 3]] [LInt 1] 1%nat 1%nat "b" [PInt 2; PInt 3]
             (@Variable_.Build models int "") int); discharge.
Defined.

Lemma local_execute_fewer_elements_witness :
  (PythonTask.dispatch_execute one_for_two (local_context BranchEvalMode.BRANCH_ACTIVE) []
     (World (local_context BranchEvalMode.BRANCH_ACTIVE)
        [Call_translate_inputs_to_literals] 0%nat ∅)).1
  = Ok (PLiteralMap [("a", LInt 1)])
  /\ length [("a", LInt 1)] = 1%nat
  /\ (Task._local_execute (PythonTask.as_Task one_for_two)
        (local_context BranchEvalMode.BRANCH_ACTIVE) []
        (start (local_context BranchEvalMode.BRANCH_ACTIVE))).1
     = Raise (AssertionError "Length difference 2 1").
Proof.
  apply (local_execute_fewer_elements one_for_two (local_context BranchEvalMode.BRANCH_ACTIVE)
           [] (start (local_context BranchEvalMode.BRANCH_ACTIVE)) [] []
           (PTuple [PInt 1]) [PInt 1] [LInt 1] 1%nat); discharge.
Defined.


Lemma get_registerable_entity_frame_witness :
  registerable_entity (PythonTask.get_registerable_entity add (start no_context)).2
    !! PythonTask.oid pair
  = (∅ : gmap nat SdkTask.t) !! PythonTask.oid pair
  /\ heap (PythonTask.get_registerable_entity add (start no_context)).2 = 0%nat
  /\ context (PythonTask.get_registerable_entity add (start no_context)).2 = no_context
  /\ count_events is_Call_execute
       (trace (PythonTask.get_registerable_entity add (start no_context)).2)
     = count_events is_Call_execute (@nil event).
Proof.
  apply (get_registerable_entity_frame add (start no_context) (PythonTask.oid pair)).
  cbn. lia.
Defined.

Lemma get_registerable_entity_identity_witness :
  (mapM (fun c => with_context c (PythonTask.get_registerable_entity add))
     [no_context; other_settings] (start no_context)).1
  = Ok (replicate 2
          (Some (SdkTask.Build "python-task" (TaskMetadata.Build 0 0)
                   (PythonTask.interface add) None None
                   (Identifier.Build "TASK" "proj" "dev" "add" "v1")))).
Proof.
  rewrite (get_registerable_entity_identity add (start no_context) no_context
             [other_settings]) by reflexivity.
  reflexivity.
Defined.
End MoreRuns.
